(** * Change detection and sync history of the STM Python integration example

    A shallow embedding of [reports/examples/python-integration.py]:
    [BidirectionalSync.compute_sync_hash], [BidirectionalSync.sync_task_bidirectional],
    [ProjectManagementSystem.add_sync_event] and the [STMIntegration] helpers they call.

    Conventions of the embedding.
    - Python values that travel through [json] are values of [json] below: [None],
      [bool], [int], [str], [list] and [dict]; floating point numbers are left out.
    - A Python [str] is a [string] whose characters are read as code points 0..255.
    - A Python [dict] is an association list in insertion order with distinct keys.
    - [hashlib.sha256] is the FIPS 180-4 function, written out in [Sha256].
    - [json.loads] is a parameter of the development ([json_loads]); nothing is
      assumed about it.
    - The wall clock ([datetime.now(timezone.utc).isoformat()]) is the parameter [now]. *)

From Stdlib Require Import NArith ZArith List Ascii String Bool Lia.
From Stdlib Require Import Permutation Sorted DecimalString.
Import ListNotations.

Local Open Scope list_scope.
Local Open Scope string_scope.

(* ================================================================== *)
(** * SHA-256 (FIPS 180-4), as used through [hashlib.sha256] *)
(* ================================================================== *)

Module Sha256.

Local Open Scope N_scope.

Definition modulus : N := 2 ^ 32.

(** 32-bit words are numbers below [modulus]; every operation wraps. *)
Definition wrap (x : N) : N := x mod modulus.
Definition add32 (x y : N) : N := wrap (x + y).
Definition rotr (n x : N) : N :=
  wrap (N.lor (N.shiftr x n) (N.shiftl x (32 - n))).
Definition not32 (x : N) : N := N.lxor x (modulus - 1).

Definition Ch (x y z : N) : N := N.lxor (N.land x y) (N.land (not32 x) z).
Definition Maj (x y z : N) : N :=
  N.lxor (N.lxor (N.land x y) (N.land x z)) (N.land y z).
Definition Sigma0 (x : N) : N := N.lxor (N.lxor (rotr 2 x) (rotr 13 x)) (rotr 22 x).
Definition Sigma1 (x : N) : N := N.lxor (N.lxor (rotr 6 x) (rotr 11 x)) (rotr 25 x).
Definition sigma0 (x : N) : N := N.lxor (N.lxor (rotr 7 x) (rotr 18 x)) (N.shiftr x 3).
Definition sigma1 (x : N) : N := N.lxor (N.lxor (rotr 17 x) (rotr 19 x)) (N.shiftr x 10).

(** The round constants are the first 32 bits of the fractional parts of the cube
    roots of the first 64 primes, the initial hash value those of the square roots
    of the first 8 primes.  They are computed here rather than tabulated. *)
Definition primes64 : list N :=
  [   2;   3;   5;   7;  11;  13;  17;  19;  23;  29;  31;  37;  41;  43;  47;  53;
     59;  61;  67;  71;  73;  79;  83;  89;  97; 101; 103; 107; 109; 113; 127; 131;
    137; 139; 149; 151; 157; 163; 167; 173; 179; 181; 191; 193; 197; 199; 211; 223;
    227; 229; 233; 239; 241; 251; 257; 263; 269; 271; 277; 281; 283; 293; 307; 311 ].

Fixpoint cube_root_bits (k : nat) (x r : N) : N :=
  match k with
  | O => r
  | S k' =>
      let c := N.lor r (N.shiftl 1 (N.of_nat k')) in
      cube_root_bits k' x (if c * c * c <=? x then c else r)
  end.

Definition cube_root (x : N) : N := cube_root_bits 40 x 0.

Definition K : list N :=
  Eval vm_compute in map (fun p => wrap (cube_root (p * 2 ^ 96))) primes64.

Definition H0 : list N :=
  Eval vm_compute in map (fun p => wrap (N.sqrt (p * 2 ^ 64))) (firstn 8 primes64).

Record state : Type := State
  { sa : N; sb : N; sc : N; sd : N; se : N; sf : N; sg : N; sh : N }.

Definition initial : state :=
  State (nth 0 H0 0) (nth 1 H0 0) (nth 2 H0 0) (nth 3 H0 0)
        (nth 4 H0 0) (nth 5 H0 0) (nth 6 H0 0) (nth 7 H0 0).

(** Padding: a 1 bit, zero bits up to 448 mod 512, the bit length on 64 bits. *)
Fixpoint be_bytes (n : nat) (x : N) : list N :=
  match n with
  | O => []
  | S n' => (N.shiftr x (8 * N.of_nat n')) mod 256 :: be_bytes n' x
  end.

Definition pad (msg : list N) : list N :=
  let len := List.length msg in
  let zeros := Nat.modulo (119 - Nat.modulo len 64) 64 in
  msg ++ [128] ++ repeat 0 zeros ++ be_bytes 8 (8 * N.of_nat len).

Fixpoint words_of_bytes (bs : list N) : list N :=
  match bs with
  | b3 :: b2 :: b1 :: b0 :: rest =>
      (b3 * 2 ^ 24 + b2 * 2 ^ 16 + b1 * 2 ^ 8 + b0) :: words_of_bytes rest
  | _ => []
  end.

(** Message schedule: [w] holds W_0..W_{t-1}; each step appends W_t. *)
Fixpoint schedule (n : nat) (w : list N) : list N :=
  match n with
  | O => w
  | S n' =>
      let t := List.length w in
      let wt := add32 (add32 (sigma1 (nth (t - 2) w 0)) (nth (t - 7) w 0))
                      (add32 (sigma0 (nth (t - 15) w 0)) (nth (t - 16) w 0)) in
      schedule n' (w ++ [wt])
  end.

Definition round (s : state) (kw : N * N) : state :=
  let t1 := add32 (add32 (add32 (sh s) (Sigma1 (se s))) (Ch (se s) (sf s) (sg s)))
                  (add32 (fst kw) (snd kw)) in
  let t2 := add32 (Sigma0 (sa s)) (Maj (sa s) (sb s) (sc s)) in
  State (add32 t1 t2) (sa s) (sb s) (sc s) (add32 (sd s) t1) (se s) (sf s) (sg s).

Definition compress (hs : state) (block : list N) : state :=
  let w := schedule 48 (words_of_bytes block) in
  let s := fold_left round (combine K w) hs in
  State (add32 (sa hs) (sa s)) (add32 (sb hs) (sb s))
        (add32 (sc hs) (sc s)) (add32 (sd hs) (sd s))
        (add32 (se hs) (se s)) (add32 (sf hs) (sf s))
        (add32 (sg hs) (sg s)) (add32 (sh hs) (sh s)).

Fixpoint blocks (n : nat) (bs : list N) : list (list N) :=
  match n with
  | O => []
  | S n' => firstn 64 bs :: blocks n' (skipn 64 bs)
  end.

Definition digest (msg : list N) : state :=
  let padded := pad msg in
  fold_left compress (blocks (Nat.div (List.length padded) 64) padded) initial.

(** Lower-case hexadecimal, as [hexdigest] prints it. *)
Definition hex_digit (n : N) : ascii :=
  match n with
  | 0 => "0" | 1 => "1" | 2 => "2" | 3 => "3" | 4 => "4" | 5 => "5" | 6 => "6"
  | 7 => "7" | 8 => "8" | 9 => "9" | 10 => "a" | 11 => "b" | 12 => "c"
  | 13 => "d" | 14 => "e" | _ => "f"
  end%char.

Definition nibble (w : N) (i : N) : ascii := hex_digit (N.shiftr w (4 * i) mod 16).

Definition hex8 (w : N) (tail : string) : string :=
  String (nibble w 7) (String (nibble w 6) (String (nibble w 5) (String (nibble w 4)
  (String (nibble w 3) (String (nibble w 2) (String (nibble w 1) (String (nibble w 0)
  tail))))))).

Definition hex_of_state (s : state) : string :=
  hex8 (sa s) (hex8 (sb s) (hex8 (sc s) (hex8 (sd s)
  (hex8 (se s) (hex8 (sf s) (hex8 (sg s) (hex8 (sh s) EmptyString))))))).

Definition bytes_of_string (s : string) : list N :=
  map N_of_ascii (list_ascii_of_string s).

(** [hashlib.sha256(s.encode()).hexdigest()] for a string of ASCII characters. *)
Definition hexdigest (s : string) : string := hex_of_state (digest (bytes_of_string s)).

End Sha256.

(* ================================================================== *)
(** * Python values and [json.dumps] *)
(* ================================================================== *)

(** What [json.loads] can return and [json.dumps] can print, floats apart. *)
#[local] Set Warnings "-register-all".
Inductive json : Type :=
| JNull
| JBool (b : bool)
| JInt (n : Z)
| JStr (s : string)
| JList (l : list json)
| JDict (d : list (string * json)).

(** A [dict] with [str] keys, in insertion order. *)
Definition dict : Type := list (string * json).

Definition dquote : ascii := ascii_of_N 34.
Definition backslash : ascii := ascii_of_N 92.

(** [json.encoder.py_encode_basestring_ascii]: the two-character escapes, then
    [\uXXXX] for everything outside the printable ASCII range. *)
Definition hex4 (n : N) : string :=
  String (Sha256.nibble n 3) (String (Sha256.nibble n 2)
  (String (Sha256.nibble n 1) (String (Sha256.nibble n 0) EmptyString))).

Definition escape_char (c : ascii) : string :=
  let n := N_of_ascii c in
  if (n =? 34)%N then String backslash (String dquote EmptyString)
  else if (n =? 92)%N then String backslash (String backslash EmptyString)
  else if (n =? 10)%N then String backslash "n"
  else if (n =? 13)%N then String backslash "r"
  else if (n =? 9)%N then String backslash "t"
  else if (n =? 8)%N then String backslash "b"
  else if (n =? 12)%N then String backslash "f"
  else if ((n <? 32) || (126 <? n))%N then String backslash ("u" ++ hex4 n)
  else String c EmptyString.

Fixpoint escape (s : string) : string :=
  match s with
  | EmptyString => EmptyString
  | String c s' => escape_char c ++ escape s'
  end.

Definition encode_str (s : string) : string :=
  String dquote (escape s ++ String dquote EmptyString).

(** [sorted(dct.items())]: the keys of a dict are distinct, so the items are ordered
    by key alone, code point by code point.  Insertion from the right keeps the
    sort stable, as Python's is. *)
Fixpoint insert_item {V : Type} (x : string * V) (l : list (string * V))
  : list (string * V) :=
  match l with
  | [] => [x]
  | y :: l' =>
      if String.leb (fst x) (fst y) then x :: y :: l' else y :: insert_item x l'
  end.

Definition sort_items {V : Type} (l : list (string * V)) : list (string * V) :=
  fold_right insert_item [] l.

Definition encode_int (n : Z) : string := NilZero.string_of_int (Z.to_int n).

Definition encode_item (kv : string * string) : string :=
  encode_str (fst kv) ++ ": " ++ snd kv.

(** [json.dumps(v, sort_keys=...)] with the default separators and
    [ensure_ascii=True].  The values of a dict are printed first and the printed
    items ordered afterwards; since only keys are compared this is the order
    [sorted(dct.items())] gives (see [sort_items_map_value]). *)
Fixpoint json_dumps (sort_keys : bool) (v : json) : string :=
  match v with
  | JNull => "null"
  | JBool true => "true"
  | JBool false => "false"
  | JInt n => encode_int n
  | JStr s => encode_str s
  | JList l => "[" ++ String.concat ", " (map (json_dumps sort_keys) l) ++ "]"
  | JDict d =>
      let printed := map (fun kv => (fst kv, json_dumps sort_keys (snd kv))) d in
      let items := if sort_keys then sort_items printed else printed in
      "{" ++ String.concat ", " (map encode_item items) ++ "}"
  end.

(* ================================================================== *)
(** * [BidirectionalSync.compute_sync_hash] *)
(* ================================================================== *)

(** [hashlib.sha256(json.dumps(data, sort_keys=True).encode()).hexdigest()[:16]].
    The printed text is ASCII, so its UTF-8 encoding is the text itself. *)
Definition compute_sync_hash (data : dict) : string :=
  let json_str := json_dumps true (JDict data) in
  substring 0 16 (Sha256.hexdigest json_str).

(* ================================================================== *)
(** * Python operations on decoded values *)
(* ================================================================== *)

(** [a == b].  [bool] is a subclass of [int], so [True == 1]; lists compare
    element by element, dicts as sets of items. *)
Fixpoint dict_get {V : Type} (k : string) (d : list (string * V)) : option V :=
  match d with
  | [] => None
  | (k', v) :: d' => if String.eqb k' k then Some v else dict_get k d'
  end.

Definition Z_of_bool (b : bool) : Z := if b then 1%Z else 0%Z.

Fixpoint py_eq (a b : json) : bool :=
  match a, b with
  | JNull, JNull => true
  | JBool x, JBool y => Bool.eqb x y
  | JBool x, JInt n => Z.eqb (Z_of_bool x) n
  | JInt n, JBool y => Z.eqb n (Z_of_bool y)
  | JInt n, JInt m => Z.eqb n m
  | JStr s, JStr t => String.eqb s t
  | JList l, JList m =>
      (fix all2 (l m : list json) {struct l} : bool :=
         match l, m with
         | [], [] => true
         | x :: l', y :: m' => py_eq x y && all2 l' m'
         | _, _ => false
         end) l m
  | JDict d, JDict e =>
      Nat.eqb (List.length d) (List.length e)
      && forallb (fun kv => match dict_get (fst kv) e with
                            | Some v' => py_eq (snd kv) v'
                            | None => false
                            end) d
  | _, _ => false
  end.

(** [d.get(k, default)] *)
Definition get_or (k : string) (d : dict) (default : json) : json :=
  match dict_get k d with
  | Some v => v
  | None => default
  end.

(** [d[k] = v]: an existing key keeps its place, a new one goes last. *)
Fixpoint dict_set (k : string) (v : json) (d : dict) : dict :=
  match d with
  | [] => [(k, v)]
  | (k', v') :: d' =>
      if String.eqb k' k then (k', v) :: d' else (k', v') :: dict_set k v d'
  end.

(** The keys of a Python dict are pairwise distinct. *)
Fixpoint distinct_keys {V : Type} (d : list (string * V)) : bool :=
  match d with
  | [] => true
  | (k, _) :: d' =>
      match dict_get k d' with
      | Some _ => false
      | None => distinct_keys d'
      end
  end.

(** Exceptions the modelled code can raise. *)
Inductive exn : Type := RuntimeError | TypeError | AttributeError.

(** [set(v)]: the elements [v] iterates over, or [TypeError] when [v] is not
    iterable or an element is unhashable.  A set is kept as the list of its
    elements and compared by mutual inclusion. *)
Definition hashable (v : json) : bool :=
  match v with
  | JList _ | JDict _ => false
  | _ => true
  end.

Definition py_iter (v : json) : option (list json) :=
  match v with
  | JList l => Some l
  | JStr s => Some (map (fun c => JStr (String c EmptyString)) (list_ascii_of_string s))
  | JDict d => Some (map (fun kv => JStr (fst kv)) d)
  | _ => None
  end.

Definition py_set (v : json) : option (list json) :=
  match py_iter v with
  | Some l => if forallb hashable l then Some l else None
  | None => None
  end.

Definition subset (a b : list json) : bool :=
  forallb (fun x => existsb (py_eq x) b) a.

Definition set_eq (a b : list json) : bool := subset a b && subset b a.

(** [s[n:]] *)
Definition string_from (n : nat) (s : string) : string :=
  substring n (String.length s - n) s.

(* ================================================================== *)
(** * The task store behind the CLI, and the effect monad *)
(* ================================================================== *)

(** A workspace holds the tasks by id, each as the JSON object the CLI shows. *)
Definition workspace : Type := list (Z * dict).

Fixpoint find_task (task_id : Z) (ws : workspace) : option dict :=
  match ws with
  | [] => None
  | (i, t) :: ws' => if Z.eqb i task_id then Some t else find_task task_id ws'
  end.

Fixpoint store_task (task_id : Z) (t : dict) (ws : workspace) : workspace :=
  match ws with
  | [] => []
  | (i, t') :: ws' =>
      if Z.eqb i task_id then (i, t) :: ws' else (i, t') :: store_task task_id t ws'
  end.

Inductive outcome (A : Type) : Type :=
| Return (a : A)
| Raise (e : exn).
Arguments Return {A} a.
Arguments Raise {A} e.

(** A computation reads and writes the workspace and returns or raises; the
    workspace it leaves is kept in both cases. *)
Definition M (A : Type) : Type := workspace -> outcome A * workspace.

Definition ret {A : Type} (a : A) : M A := fun ws => (Return a, ws).
Definition raise {A : Type} (e : exn) : M A := fun ws => (Raise e, ws).
Definition bind {A B : Type} (m : M A) (k : A -> M B) : M B :=
  fun ws =>
    match m ws with
    | (Return a, ws') => k a ws'
    | (Raise e, ws') => (Raise e, ws')
    end.

Notation "x <- m ;; k" := (bind m (fun x => k))
  (at level 61, m at next level, right associativity).
Notation "m ;;; k" := (bind m (fun _ => k))
  (at level 61, right associativity).

(** Modelled from the spec: the task CLI ([stm show <id> --json]) is not part of
    the source; it prints the stored task, custom fields included, as one JSON
    object, and fails when the task does not exist. *)
Definition stm_show (task_id : Z) : M dict :=
  fun ws =>
    match find_task task_id ws with
    | Some t => (Return t, ws)
    | None => (Raise RuntimeError, ws)
    end.

(** One [name=value] argument, cut at its first [=]. *)
Fixpoint split_assignment (s : string) : option (string * string) :=
  match s with
  | EmptyString => None
  | String c s' =>
      if Ascii.eqb c "=" then Some (EmptyString, s')
      else match split_assignment s' with
           | Some (n, v) => Some (String c n, v)
           | None => None
           end
  end.

(** Whether a field name holds the [=] that separates it from its value. *)
Fixpoint has_equals (s : string) : bool :=
  match s with
  | EmptyString => false
  | String c s' => Ascii.eqb c "=" || has_equals s'
  end.

Fixpoint apply_assignments (args : list string) (t : dict) : option dict :=
  match args with
  | [] => Some t
  | a :: rest =>
      match split_assignment a with
      | Some (n, v) => apply_assignments rest (dict_set n (JStr v) t)
      | None => None
      end
  end.

(** Modelled from the spec: the task CLI ([stm update <id> name=value ...]) is not
    part of the source; it stores each value as the text given under the named
    field of the task, and fails when the task does not exist or an argument is
    not an assignment. *)
Definition stm_update (task_id : Z) (assignments : list string) : M unit :=
  fun ws =>
    match find_task task_id ws with
    | Some t =>
        match apply_assignments assignments t with
        | Some t' => (Return tt, store_task task_id t' ws)
        | None => (Raise RuntimeError, ws)
        end
    | None => (Raise RuntimeError, ws)
    end.

(* ================================================================== *)
(** * [STMIntegration], [BidirectionalSync], [ProjectManagementSystem] *)
(* ================================================================== *)

Record sync_result : Type := SyncResult
  { stm_updated : bool;
    external_updated : bool;
    conflicts : list string }.

Section Integration.

(** [json.loads]: [None] stands for [json.JSONDecodeError]. *)
Variable json_loads : string -> option json.

(** [STMIntegration.get_task]: the output of [show --json], decoded. *)
Definition get_task (task_id : Z) : M dict := stm_show task_id.

(** [str(value)], [str(value).lower()] for a bool, [json.dumps(value)] for a
    dict or a list. *)
Definition field_value (value : json) : string :=
  match value with
  | JDict _ | JList _ => json_dumps false value
  | JBool b => if b then "true" else "false"
  | JNull => "None"
  | JInt n => encode_int n
  | JStr s => s
  end.

(** [STMIntegration.update_task_fields] *)
Definition update_task_fields (field_prefix : string) (task_id : Z) (fields : dict)
  : M unit :=
  let args :=
    map (fun kv =>
           let field_name := field_prefix ++ "_" ++ fst kv in
           field_name ++ "=" ++ field_value (snd kv)) fields in
  stm_update task_id args.

(** The opportunistic decoding inside [get_integration_fields]. *)
Definition decode_field (value : json) : json :=
  match value with
  | JStr s =>
      if String.prefix "{" s || String.prefix "[" s then
        match json_loads s with
        | Some v => v
        | None => value
        end
      else value
  | _ => value
  end.

(** [STMIntegration.get_integration_fields] *)
Definition get_integration_fields (field_prefix : string) (task : dict) : dict :=
  let prefix := field_prefix ++ "_" in
  fold_left
    (fun fields kv =>
       if String.prefix prefix (fst kv) then
         let field_name := string_from (String.length prefix) (fst kv) in
         dict_set field_name (decode_field (snd kv)) fields
       else fields)
    task [].

(** The bindings of [sync_task_bidirectional], named as in the source. *)
Definition last_stm_hash (stm_task : dict) : json :=
  get_or "last_stm_hash" (get_integration_fields "sync" stm_task) (JStr "").

Definition last_external_hash (stm_task : dict) : json :=
  get_or "last_external_hash" (get_integration_fields "sync" stm_task) (JStr "").

Definition stm_data (stm_task : dict) : dict :=
  [ ("title", get_or "title" stm_task JNull);
    ("status", get_or "status" stm_task JNull);
    ("tags", get_or "tags" stm_task (JList [])) ].

Definition external_data (external_system_data : dict) : dict :=
  [ ("title", get_or "title" external_system_data JNull);
    ("status", get_or "status" external_system_data JNull);
    ("labels", get_or "labels" external_system_data (JList [])) ].

Definition current_stm_hash (stm_task : dict) : string :=
  compute_sync_hash (stm_data stm_task).

Definition current_external_hash (external_system_data : dict) : string :=
  compute_sync_hash (external_data external_system_data).

Definition stm_changed (stm_task : dict) : bool :=
  negb (py_eq (JStr (current_stm_hash stm_task)) (last_stm_hash stm_task)).

Definition external_changed (stm_task external_system_data : dict) : bool :=
  negb (py_eq (JStr (current_external_hash external_system_data))
              (last_external_hash stm_task)).

Definition title_conflict (stm_task external_system_data : dict) : list string :=
  if negb (py_eq (get_or "title" external_system_data JNull)
                 (get_or "title" stm_task JNull))
  then ["Title update requires manual intervention"] else [].

Definition status_conflict (stm_task external_system_data : dict) : list string :=
  if negb (py_eq (get_or "status" external_system_data JNull)
                 (get_or "status" stm_task JNull))
  then ["Status update requires manual intervention"] else [].

(** [set(external_data["labels"]) != set(stm_data["tags"])], which raises
    [TypeError] when either side cannot be made a set. *)
Definition tags_conflict (stm_task external_system_data : dict)
  : option (list string) :=
  match py_set (get_or "labels" external_system_data (JList [])),
        py_set (get_or "tags" stm_task (JList [])) with
  | Some labels, Some tags =>
      Some (if negb (set_eq labels tags)
            then ["Tags update requires manual intervention"] else [])
  | _, _ => None
  end.

(** [BidirectionalSync.sync_task_bidirectional] *)
Definition sync_task_bidirectional
    (now : string) (task_id : Z) (external_system_data : dict) : M sync_result :=
  stm_task <- get_task task_id ;;
  if stm_changed stm_task && external_changed stm_task external_system_data then
    ret (SyncResult false false ["Both STM and external system have changes"])
  else if external_changed stm_task external_system_data
          && negb (stm_changed stm_task) then
    match tags_conflict stm_task external_system_data with
    | None => raise TypeError
    | Some tags_c =>
        let conflicts :=
          (title_conflict stm_task external_system_data
           ++ status_conflict stm_task external_system_data ++ tags_c)%list in
        let updates :=
          [ ("last_external_hash",
             JStr (current_external_hash external_system_data));
            ("last_external_sync", JStr now);
            ("external_data", JDict external_system_data) ] in
        update_task_fields "sync" task_id updates ;;;
        ret (SyncResult true false conflicts)
    end
  else if stm_changed stm_task
          && negb (external_changed stm_task external_system_data) then
    update_task_fields "sync" task_id
      [ ("last_stm_hash", JStr (current_stm_hash stm_task));
        ("last_external_sync", JStr now) ] ;;;
    ret (SyncResult false true [])
  else
    ret (SyncResult false false []).

(** [history[-100:]] under the guard [len(history) > 100] *)
Definition limit_history (history : list json) : list json :=
  if Nat.ltb 100 (List.length history)
  then skipn (List.length history - 100) history
  else history.

(** The history [add_sync_event] starts from: [fields.get("sync_history", [])],
    decoded once more when it is still a [str] (any failure gives []). *)
Definition sync_history (task : dict) : json :=
  let history := get_or "sync_history" (get_integration_fields "pms" task) (JList []) in
  match history with
  | JStr s =>
      match json_loads s with
      | Some v => v
      | None => JList []
      end
  | _ => history
  end.

(** [ProjectManagementSystem.add_sync_event]; [history.append] raises
    [AttributeError] on anything but a list. *)
Definition add_sync_event (task_id : Z) (event : dict) : M unit :=
  task <- get_task task_id ;;
  match sync_history task with
  | JList history =>
      let history := limit_history (history ++ [JDict event])%list in
      update_task_fields "pms" task_id [("sync_history", JList history)]
  | _ => raise AttributeError
  end.

End Integration.

(** The timestamp of the last sync, as the CLI stores it on the task. *)
Definition last_external_sync (task : dict) : option json :=
  dict_get "sync_last_external_sync" task.

(* ================================================================== *)
(** * The rest of [ProjectManagementSystem] *)
(* ================================================================== *)

(** [ValueError], beside the exceptions of [exn]. *)
Inductive error : Type :=
| ValueError
| Error (e : exn).

Inductive result (A : Type) : Type :=
| Ok (a : A)
| Failed (e : error).
Arguments Ok {A} a.
Arguments Failed {A} e.


(** The dataclass [ExternalTaskData]; the two optional fields default to [None]. *)
Module ExternalTaskData.

Record t : Type := Build
  { external_id : string;
    external_status : string;
    external_url : string;
    external_data : dict;
    last_synced : option string;
    sync_errors : option (list string) }.


End ExternalTaskData.



(** [bool(v)] *)
Definition truthy (v : json) : bool :=
  match v with
  | JNull => false
  | JBool b => b
  | JInt n => negb (Z.eqb n 0)
  | JStr s => negb (String.eqb s "")
  | JList l => match l with [] => false | _ :: _ => true end
  | JDict d => match d with [] => false | _ :: _ => true end
  end.

(** [s.replace("Z", "+00:00")] *)
Fixpoint replace_Z (s : string) : string :=
  match s with
  | EmptyString => EmptyString
  | String c s' =>
      if Ascii.eqb c "Z" then "+00:00" ++ replace_Z s' else String c (replace_Z s')
  end.

(** A dict of counts keyed by hashable values: [c.get(k, 0)] and [c[k] = n]. *)
Fixpoint counter_get (k : json) (c : list (json * nat)) : nat :=
  match c with
  | [] => 0
  | (k', n) :: c' => if py_eq k' k then n else counter_get k c'
  end.

Fixpoint counter_set (k : json) (n : nat) (c : list (json * nat)) : list (json * nat) :=
  match c with
  | [] => [(k, n)]
  | (k', m) :: c' =>
      if py_eq k' k then (k', n) :: c' else (k', m) :: counter_set k n c'
  end.

(** [c[k] = c.get(k, 0) + 1]; [None] stands for the [TypeError] of an
    unhashable key. *)
Definition counter_incr (k : json) (c : list (json * nat)) : option (list (json * nat)) :=
  if hashable k then Some (counter_set k (counter_get k c + 1) c) else None.

Definition counter_total {K : Type} (c : list (K * nat)) : nat :=
  fold_right (fun kn acc => snd kn + acc) 0 c.

(** [c[p] += 1] on the dict of the five priorities. *)
Definition priority_incr (p : Z) (c : list (Z * nat)) : list (Z * nat) :=
  map (fun kn => if Z.eqb (fst kn) p then (fst kn, snd kn + 1) else kn) c.

Record dashboard : Type := Dashboard
  { total_tasks : nat;
    by_status : list (json * nat);
    by_priority : list (Z * nat);
    by_assignee : list (json * nat);
    unassigned : nat;
    overdue : nat;
    updated_today : nat }.

Section Team.

Variable json_loads : string -> option json.

(** [int(s)] on a [str]; [None] stands for [ValueError]. *)
Variable int_of_str : string -> option Z.

(** [datetime.fromisoformat(s).date()] as a day number; [None] stands for
    [ValueError]. *)
Variable isoformat_date : string -> option Z.

(** The task CLI on a [list] command: the tasks it prints, decoded, or [None]
    when the command fails. *)
Variable stm_list : list string -> workspace -> option (list dict).

(** [STMIntegration.list_tasks] *)
Definition list_tasks_args (status : option string) (tags : option (list string))
  : list string :=
  (["list"; "--json"]
   ++ match status with
      | Some st => if String.eqb st "" then [] else ["--status"; st]
      | None => []
      end
   ++ match tags with
      | Some (t :: ts) => ["--tags"; String.concat "," (t :: ts)]
      | _ => []
      end)%list.

Definition list_tasks (status : option string) (tags : option (list string))
  : M (list dict) :=
  fun ws =>
    match stm_list (list_tasks_args status tags) ws with
    | Some tasks => (Return tasks, ws)
    | None => (Raise RuntimeError, ws)
    end.




(** The comments [add_external_comment] starts from. *)
Definition external_comments (task : dict) : json :=
  let comments :=
    get_or "external_comments" (get_integration_fields json_loads "pms" task) (JList []) in
  match comments with
  | JStr s =>
      match json_loads s with
      | Some v => v
      | None => JList []
      end
  | _ => comments
  end.

(** [ProjectManagementSystem.add_external_comment] *)
Definition add_external_comment
    (now : string) (task_id : Z) (author comment : string) : M unit :=
  task <- get_task task_id ;;
  match external_comments task with
  | JList comments =>
      let comments :=
        (comments ++ [JDict [ ("author", JStr author);
                              ("comment", JStr comment);
                              ("timestamp", JStr now) ]])%list in
      update_task_fields "pms" task_id [("external_comments", JList comments)]
  | _ => raise AttributeError
  end.

(** [int(priority)] under the guard [isinstance(priority, (int, str))]. *)
Definition is_int_or_str (v : json) : bool :=
  match v with
  | JInt _ | JBool _ | JStr _ => true
  | _ => false
  end.

Definition py_int (v : json) : option Z :=
  match v with
  | JInt n => Some n
  | JBool b => Some (Z_of_bool b)
  | JStr s => int_of_str s
  | _ => None
  end.

Definition initial_dashboard (tasks : list dict) : dashboard :=
  Dashboard (List.length tasks)
            [(JStr "pending", 0); (JStr "in-progress", 0); (JStr "done", 0)]
            [(1%Z, 0); (2%Z, 0); (3%Z, 0); (4%Z, 0); (5%Z, 0)]
            [] 0 0 0.

(** One turn of the loop of [get_team_dashboard_data]. *)
Definition dashboard_step (today : Z) (d : dashboard) (task : dict) : result dashboard :=
  let status := get_or "status" task (JStr "pending") in
  match counter_incr status (by_status d) with
  | None => Failed (Error TypeError)
  | Some by_status' =>
      let fields := get_integration_fields json_loads "pms" task in
      let priority := get_or "priority" fields JNull in
      let by_priority' :=
        if truthy priority && is_int_or_str priority then
          match py_int priority with
          | Some p =>
              if Z.leb 1 p && Z.leb p 5 then priority_incr p (by_priority d)
              else by_priority d
          | None => by_priority d
          end
        else by_priority d in
      let assignee := get_or "assignee" fields JNull in
      match (if truthy assignee
             then match counter_incr assignee (by_assignee d) with
                  | Some c => Some (c, unassigned d)
                  | None => None
                  end
             else Some (by_assignee d, unassigned d + 1)) with
      | None => Failed (Error TypeError)
      | Some (by_assignee', unassigned') =>
          let updated := get_or "updated" task JNull in
          if truthy updated then
            match updated with
            | JStr s =>
                match isoformat_date (replace_Z s) with
                | None => Failed ValueError
                | Some updated_date =>
                    let overdue' :=
                      if Z.ltb 14 (today - updated_date)
                         && py_eq status (JStr "in-progress")
                      then overdue d + 1 else overdue d in
                    let updated_today' :=
                      if Z.eqb updated_date today
                      then updated_today d + 1 else updated_today d in
                    Ok (Dashboard (total_tasks d) by_status' by_priority'
                                  by_assignee' unassigned' overdue' updated_today')
                end
            | _ => Failed (Error AttributeError)
            end
          else
            Ok (Dashboard (total_tasks d) by_status' by_priority'
                          by_assignee' unassigned' (overdue d) (updated_today d))
      end
  end.

Fixpoint dashboard_loop (today : Z) (d : dashboard) (tasks : list dict)
  : result dashboard :=
  match tasks with
  | [] => Ok d
  | task :: rest =>
      match dashboard_step today d task with
      | Ok d' => dashboard_loop today d' rest
      | Failed e => Failed e
      end
  end.

(** [ProjectManagementSystem.get_team_dashboard_data]; [today] is the date the
    clock reads. *)
Definition get_team_dashboard_data (today : Z) : workspace -> result dashboard * workspace :=
  fun ws =>
    match list_tasks None None ws with
    | (Return tasks, ws') => (dashboard_loop today (initial_dashboard tasks) tasks, ws')
    | (Raise e, ws') => (Failed (Error e), ws')
    end.

End Team.

(** Two values that differ at most in the order of the items of the dicts they
    hold, at any depth. *)
Inductive reordered : json -> json -> Prop :=
| reordered_same (v : json) : reordered v v
| reordered_list (l l' : list json) :
    Forall2 reordered l l' -> reordered (JList l) (JList l')
| reordered_dict (d d' e : dict) :
    Forall2 (fun a b => fst a = fst b /\ reordered (snd a) (snd b)) d d' ->
    Permutation d' e ->
    distinct_keys d = true ->
    reordered (JDict d) (JDict e).

(** Printable ASCII characters (space to tilde), and texts made of them. *)
Definition printable (c : ascii) : bool :=
  (N.leb 32 (N_of_ascii c) && N.leb (N_of_ascii c) 126)%N.

Fixpoint all_printable (s : string) : bool :=
  match s with
  | EmptyString => true
  | String c s' => printable c && all_printable s'
  end.

(* ================================================================== *)
(** * Sample tasks for the closed examples *)
(* ================================================================== *)

(** A decoder that knows one text, the empty list. *)
Definition sample_loads (s : string) : option json :=
  if String.eqb s "[]" then Some (JList []) else None.

Definition sample_now : string := "2025-01-19T15:00:00+00:00".

(** A task that was never synced. *)
Definition fresh_task : dict :=
  [ ("id", JInt 1); ("title", JStr "Implement user authentication");
    ("status", JStr "pending"); ("tags", JList [JStr "security"; JStr "backend"]) ].

(** The external side with the same title, status and labels, labels in the order
    of the tags, and with the two labels swapped. *)
Definition external_same : dict :=
  [ ("id", JStr "EXT-12345"); ("title", JStr "Implement user authentication");
    ("status", JStr "pending"); ("labels", JList [JStr "security"; JStr "backend"]) ].

Definition external_swapped : dict :=
  [ ("id", JStr "EXT-12345"); ("title", JStr "Implement user authentication");
    ("status", JStr "pending"); ("labels", JList [JStr "backend"; JStr "security"]) ].

Definition external_review : dict :=
  [ ("id", JStr "EXT-12345"); ("title", JStr "Implement user authentication");
    ("status", JStr "in_review"); ("labels", JList [JStr "security"; JStr "backend"]) ].

(** [fresh_task] after a sync that recorded its own hash and the hash of
    [external_same]. *)
Definition synced_task : dict :=
  (fresh_task
   ++ [ ("sync_last_stm_hash", JStr (compute_sync_hash (stm_data fresh_task)));
        ("sync_last_external_hash",
         JStr (compute_sync_hash (external_data external_same))) ])%list.

(** [synced_task] after its status was edited locally. *)
Definition edited_task : dict :=
  dict_set "status" (JStr "done") synced_task.

(** A task that carries an empty sync history. *)
Definition history_task : dict :=
  (fresh_task ++ [("pms_sync_history", JStr "[]")])%list.

(** One snapshot, its items inserted in two orders. *)
Definition sample_snapshot : dict :=
  [ ("title", JStr "Implement user authentication"); ("status", JStr "pending");
    ("tags", JList [JStr "security"; JStr "backend"]) ].

Definition sample_snapshot_reordered : dict :=
  [ ("tags", JList [JStr "security"; JStr "backend"]);
    ("title", JStr "Implement user authentication"); ("status", JStr "pending") ].

(** A snapshot whose values hold dicts, and the same with every dict in
    another order. *)
Definition sample_nested : dict :=
  [ ("title", JDict [("en", JStr "Login"); ("de", JStr "Anmeldung")]);
    ("status", JStr "pending");
    ("tags", JList [JDict [("name", JStr "security"); ("color", JStr "red")]]) ].

Definition sample_nested_reordered : dict :=
  [ ("tags", JList [JDict [("color", JStr "red"); ("name", JStr "security")]]);
    ("title", JDict [("de", JStr "Anmeldung"); ("en", JStr "Login")]);
    ("status", JStr "pending") ].

Definition sample_event : dict :=
  [ ("action", JStr "sync"); ("status", JStr "success") ].

(** The external side with an explicit [null] for its labels. *)
Definition external_null_labels : dict :=
  [ ("id", JStr "EXT-12345"); ("title", JStr "Implement user authentication");
    ("status", JStr "pending"); ("labels", JNull) ].



(** [int] on decimal text, dates that never parse, and a CLI that lists every
    task of the workspace. *)
Definition sample_int_of_str (s : string) : option Z :=
  option_map Z.of_int (NilZero.int_of_string s).

Definition sample_isoformat_date (s : string) : option Z := None.

Definition sample_stm_list (args : list string) (ws : workspace) : option (list dict) :=
  Some (map snd ws).

(** A workspace of two tasks, the second assigned and prioritised, and a task
    whose status is a list. *)
Definition team_workspace : workspace :=
  [ (1%Z, fresh_task);
    (2%Z, (dict_set "id" (JInt 2) (dict_set "status" (JStr "done") fresh_task)
           ++ [ ("pms_assignee", JStr "developer@company.com");
                ("pms_priority", JStr "2") ])%list) ].

Definition malformed_task : dict :=
  [ ("id", JInt 3); ("title", JStr "Broken"); ("status", JList []) ].

(** The dashboard of [team_workspace]. *)
Definition team_dashboard : dashboard :=
  Dashboard 2
    [(JStr "pending", 1); (JStr "in-progress", 0); (JStr "done", 1)]
    [(1%Z, 0); (2%Z, 1); (3%Z, 0); (4%Z, 0); (5%Z, 0)]
    [(JStr "developer@company.com", 1)] 1 0 0.

(* ================================================================== *)
(** * Key order and [sorted] *)
(* ================================================================== *)

Section KeyOrder.

Lemma leb_trans (a b c : string) :
  String.leb a b = true -> String.leb b c = true -> String.leb a c = true.
Proof.
  unfold String.leb. revert b c.
  induction a as [|x a IH]; intros [|y b] [|z c]; simpl; try congruence.
  unfold Ascii.compare.
  destruct (N.compare_spec (N_of_ascii x) (N_of_ascii y)) as [E1|L1|G1];
    destruct (N.compare_spec (N_of_ascii y) (N_of_ascii z)) as [E2|L2|G2];
    destruct (N.compare_spec (N_of_ascii x) (N_of_ascii z)) as [E3|L3|G3];
    try congruence; try lia.
  apply IH.
Qed.

Lemma leb_false_flip (a b : string) : String.leb a b = false -> String.leb b a = true.
Proof.
  intros H. destruct (String.leb_total a b) as [E|E]; congruence.
Qed.

Context {V : Type}.
Implicit Types (x y : string * V) (l : list (string * V)).

(** Two insertions of items with different keys commute, whatever the list. *)
Lemma insert_item_comm x y l :
  fst x <> fst y ->
  insert_item x (insert_item y l) = insert_item y (insert_item x l).
Proof.
  intros Hxy. induction l as [|z l IH]; simpl.
  - destruct (String.leb (fst x) (fst y)) eqn:Exy;
      destruct (String.leb (fst y) (fst x)) eqn:Eyx; try reflexivity.
    + elim Hxy. now apply String.leb_antisym.
    + apply leb_false_flip in Exy. congruence.
  - destruct (String.leb (fst y) (fst z)) eqn:Eyz;
      destruct (String.leb (fst x) (fst z)) eqn:Exz; simpl;
      rewrite ?Eyz, ?Exz;
      destruct (String.leb (fst x) (fst y)) eqn:Exy;
      destruct (String.leb (fst y) (fst x)) eqn:Eyx;
      try reflexivity;
      try (elim Hxy; now apply String.leb_antisym);
      try (apply leb_false_flip in Exy; congruence);
      try (rewrite (leb_trans _ _ _ Exy Eyz) in Exz; discriminate);
      try (rewrite (leb_trans _ _ _ Eyx Exz) in Eyz; discriminate).
    all: now rewrite IH.
Qed.

Lemma sort_items_permutation l1 l2 :
  Permutation l1 l2 -> NoDup (map fst l1) -> sort_items l1 = sort_items l2.
Proof.
  induction 1 as [|x l1 l2 HP IH|x y l|l1 l2 l3 HP1 IH1 HP2 IH2]; intros ND; simpl.
  - reflexivity.
  - inversion ND; subst. now rewrite IH.
  - apply insert_item_comm.
    inversion ND as [|? ? Hnotin _]; subst. intros E. apply Hnotin.
    simpl. now left.
  - rewrite IH1 by assumption. apply IH2.
    eapply Permutation_NoDup; [|exact ND]. now apply Permutation_map.
Qed.

Lemma dict_get_None l k : dict_get k l = None <-> ~ In k (map fst l).
Proof.
  induction l as [|[k' v] l IH]; simpl.
  - tauto.
  - destruct (String.eqb_spec k' k) as [E|NE].
    + split; [discriminate|]. intros H. elim H. now left.
    + rewrite IH. tauto.
Qed.

Lemma distinct_keys_NoDup l : distinct_keys l = true <-> NoDup (map fst l).
Proof.
  induction l as [|[k v] l IH]; simpl.
  - split; [constructor|reflexivity].
  - destruct (dict_get k l) eqn:E.
    + split; [discriminate|]. intros ND. inversion ND as [|? ? Hnotin _]; subst.
      apply dict_get_None in Hnotin. congruence.
    + rewrite IH. apply dict_get_None in E.
      split; [now constructor|]. intros ND. now inversion ND.
Qed.

End KeyOrder.

(** Ordering the printed items is ordering the items, then printing them. *)
Lemma insert_item_map_value {V W : Type} (g : V -> W) (x : string * V) l :
  insert_item (fst x, g (snd x)) (map (fun kv => (fst kv, g (snd kv))) l)
  = map (fun kv => (fst kv, g (snd kv))) (insert_item x l).
Proof.
  induction l as [|y l IH]; simpl; [reflexivity|].
  destruct (String.leb (fst x) (fst y)); simpl; [reflexivity|]. now rewrite IH.
Qed.

Lemma sort_items_map_value {V W : Type} (g : V -> W) (l : list (string * V)) :
  sort_items (map (fun kv => (fst kv, g (snd kv))) l)
  = map (fun kv => (fst kv, g (snd kv))) (sort_items l).
Proof.
  induction l as [|x l IH]; simpl; [reflexivity|].
  rewrite IH. apply insert_item_map_value.
Qed.

(* ================================================================== *)
(** * Properties of [compute_sync_hash] *)
(* ================================================================== *)

(** C3. [compute_sync_hash] does not depend on the insertion order of its
    argument: two dicts holding the same items, in any two orders, have the same
    digest, because the text that is hashed lists the items by sorted key. *)
Theorem compute_sync_hash_order_independent (a b : dict) :
  distinct_keys a = true ->
  Permutation a b ->
  json_dumps true (JDict a) = json_dumps true (JDict b)
  /\ compute_sync_hash a = compute_sync_hash b.
Proof.
  intros Hd HP.
  assert (E : json_dumps true (JDict a) = json_dumps true (JDict b)).
  { assert (S : sort_items (map (fun kv => (fst kv, json_dumps true (snd kv))) a)
                = sort_items (map (fun kv => (fst kv, json_dumps true (snd kv))) b)).
    { apply sort_items_permutation.
      - now apply Permutation_map.
      - rewrite map_map. simpl. now apply distinct_keys_NoDup. }
    simpl. now rewrite S. }
  split; [exact E|]. unfold compute_sync_hash. now rewrite E.
Qed.


(** The digest is sixteen lower-case hexadecimal digits: the first two words of
    the SHA-256 state. *)
Lemma hex_digit_not_opener (n : N) :
  Sha256.hex_digit n <> "{"%char /\ Sha256.hex_digit n <> "["%char.
Proof.
  destruct n as [|p]; [split; discriminate|].
  do 4 (try destruct p as [p|p|]); split; discriminate.
Qed.

Lemma compute_sync_hash_shape (data : dict) :
  exists w1 w2 : N, compute_sync_hash data = Sha256.hex8 w1 (Sha256.hex8 w2 "").
Proof.
  unfold compute_sync_hash, Sha256.hexdigest.
  generalize (Sha256.digest (Sha256.bytes_of_string (json_dumps true (JDict data)))).
  intros [a b c d e f g h]. exists a, b. reflexivity.
Qed.

Lemma compute_sync_hash_length (data : dict) :
  String.length (compute_sync_hash data) = 16.
Proof.
  destruct (compute_sync_hash_shape data) as (w1 & w2 & E). rewrite E. reflexivity.
Qed.

Lemma compute_sync_hash_not_empty (data : dict) : compute_sync_hash data <> "".
Proof.
  intros E. pose proof (compute_sync_hash_length data) as L.
  rewrite E in L. discriminate.
Qed.

Lemma prefix_char_neq (a c : ascii) (tail : string) :
  c <> a -> String.prefix (String a "") (String c tail) = false.
Proof.
  intros NE. simpl. destruct (ascii_dec a c) as [E|_]; [|reflexivity].
  now elim NE.
Qed.

Lemma compute_sync_hash_no_opener (data : dict) :
  String.prefix "{" (compute_sync_hash data) = false
  /\ String.prefix "[" (compute_sync_hash data) = false.
Proof.
  destruct (compute_sync_hash_shape data) as (w1 & w2 & E). rewrite E.
  unfold Sha256.hex8 at 1 3. unfold Sha256.nibble at 1 9.
  split; apply prefix_char_neq; apply hex_digit_not_opener.
Qed.

(** [str == v] holds only for the same [str]. *)
Lemma py_eq_str (s : string) (v : json) : py_eq (JStr s) v = true <-> v = JStr s.
Proof.
  destruct v; simpl; try (split; [discriminate|intros E; discriminate E]).
  rewrite String.eqb_eq. split; intros E; [now subst|]. now injection E.
Qed.

Lemma JStr_inj (a b : string) : JStr a = JStr b -> a = b.
Proof. intros E. now injection E. Qed.

Lemma py_eq_str_refl (s : string) : py_eq (JStr s) (JStr s) = true.
Proof. now apply py_eq_str. Qed.

(* ================================================================== *)
(** * Dicts, prefixes and the task store *)
(* ================================================================== *)

Lemma dict_get_set_same (k : string) (v : json) (d : dict) :
  dict_get k (dict_set k v d) = Some v.
Proof.
  induction d as [|[k' v'] d IH]; simpl.
  - now rewrite String.eqb_refl.
  - destruct (String.eqb k' k) eqn:E; simpl; rewrite E; [reflexivity|exact IH].
Qed.

Lemma dict_get_set_other (k k0 : string) (v : json) (d : dict) :
  k0 <> k -> dict_get k (dict_set k0 v d) = dict_get k d.
Proof.
  intros NE. induction d as [|[k' v'] d IH]; simpl.
  - destruct (String.eqb_spec k0 k); [contradiction|reflexivity].
  - destruct (String.eqb_spec k' k0) as [E|E]; simpl.
    + subst k'. destruct (String.eqb_spec k0 k); [contradiction|reflexivity].
    + destruct (String.eqb k' k); [reflexivity|exact IH].
Qed.

Lemma dict_set_keys (k : string) (v : json) (d : dict) :
  map fst (dict_set k v d)
  = match dict_get k d with
    | Some _ => map fst d
    | None => (map fst d ++ [k])%list
    end.
Proof.
  induction d as [|[k' v'] d IH]; simpl; [reflexivity|].
  destruct (String.eqb k' k) eqn:E; simpl; [reflexivity|].
  rewrite IH. now destruct (dict_get k d).
Qed.

(** Assignment keeps the keys of a dict distinct. *)
Lemma dict_set_distinct (k : string) (v : json) (d : dict) :
  distinct_keys d = true -> distinct_keys (dict_set k v d) = true.
Proof.
  rewrite !distinct_keys_NoDup, dict_set_keys. intros ND.
  destruct (dict_get k d) eqn:E; [exact ND|].
  apply dict_get_None in E.
  apply NoDup_app; [exact ND|repeat constructor; simpl; tauto|].
  intros x Hx [<-|[]]. contradiction.
Qed.

Lemma substring_all (s : string) : substring 0 (String.length s) s = s.
Proof. induction s as [|c s IH]; simpl; [reflexivity|now rewrite IH]. Qed.

Lemma prefix_append (p s : string) : String.prefix p (p ++ s) = true.
Proof.
  induction p as [|c p IH]; simpl; [now destruct s|].
  destruct (ascii_dec c c); [exact IH|contradiction].
Qed.

Lemma string_from_append (p s : string) : string_from (String.length p) (p ++ s) = s.
Proof.
  unfold string_from. induction p as [|c p IH]; simpl.
  - rewrite Nat.sub_0_r. apply substring_all.
  - exact IH.
Qed.

Lemma prefix_split (p s : string) :
  String.prefix p s = true -> s = p ++ string_from (String.length p) s.
Proof.
  revert s. induction p as [|c p IH]; intros s H.
  - unfold string_from. simpl. rewrite Nat.sub_0_r. now rewrite substring_all.
  - destruct s as [|c' s]; simpl in H; [discriminate|].
    destruct (ascii_dec c c') as [<-|]; [|discriminate].
    simpl. f_equal. now apply IH.
Qed.

Lemma find_store_same (task_id : Z) (t t0 : dict) (ws : workspace) :
  find_task task_id ws = Some t0 ->
  find_task task_id (store_task task_id t ws) = Some t.
Proof.
  induction ws as [|[i t'] ws IH]; simpl; [discriminate|].
  destruct (Z.eqb i task_id) eqn:E; simpl; rewrite E; [reflexivity|exact IH].
Qed.

Lemma find_store_other (task_id other : Z) (t : dict) (ws : workspace) :
  other <> task_id ->
  find_task other (store_task task_id t ws) = find_task other ws.
Proof.
  intros NE. induction ws as [|[i t'] ws IH]; simpl; [reflexivity|].
  destruct (Z.eqb_spec i task_id) as [E|E]; simpl.
  - subst i. destruct (Z.eqb_spec task_id other); [congruence|reflexivity].
  - destruct (Z.eqb i other); [reflexivity|exact IH].
Qed.

(** An argument [name=value] whose name holds no [=] is cut where it was joined. *)
Lemma split_assignment_join (name value : string) :
  has_equals name = false ->
  split_assignment (name ++ "=" ++ value) = Some (name, value).
Proof.
  induction name as [|c name IH]; simpl; [reflexivity|].
  intros H. apply orb_false_elim in H as [Hc Hn].
  specialize (IH Hn). simpl in IH. rewrite Hc, IH. reflexivity.
Qed.

(* ================================================================== *)
(** * Reading and writing the integration fields *)
(* ================================================================== *)

Arguments compute_sync_hash : simpl never.
Arguments json_dumps : simpl never.

Section Fields.

Variable json_loads : string -> option json.

(** On a hash, the opportunistic decoding of [get_integration_fields] does nothing. *)
Lemma decode_field_hash (data : dict) :
  decode_field json_loads (JStr (compute_sync_hash data)) = JStr (compute_sync_hash data).
Proof.
  unfold decode_field.
  destruct (compute_sync_hash_no_opener data) as [H1 H2]. now rewrite H1, H2.
Qed.

(** A field whose prefixed key is absent from the task is absent from the result. *)
Lemma integration_fields_absent (p : string) (k : string) (task acc : dict) :
  dict_get ((p ++ "_") ++ k) task = None ->
  dict_get k
    (fold_left
       (fun fields kv =>
          if String.prefix (p ++ "_") (fst kv) then
            dict_set (string_from (String.length (p ++ "_")) (fst kv))
                     (decode_field json_loads (snd kv)) fields
          else fields) task acc)
  = dict_get k acc.
Proof.
  revert acc. induction task as [|[key value] task IH]; intros acc H; [reflexivity|].
  simpl in H. destruct (String.eqb_spec key ((p ++ "_") ++ k)) as [E|NE]; [discriminate|].
  simpl fold_left. rewrite (IH _ H). simpl fst.
  destruct (String.prefix (p ++ "_") key) eqn:P; [|reflexivity].
  apply dict_get_set_other. intros E. apply NE.
  rewrite (prefix_split _ _ P). now rewrite E.
Qed.

(** A field whose prefixed key is present is read, decoded, from the task. *)
Lemma integration_fields_present (p : string) (k : string) (task acc : dict) (v : json) :
  NoDup (map fst task) ->
  dict_get ((p ++ "_") ++ k) task = Some v ->
  dict_get k
    (fold_left
       (fun fields kv =>
          if String.prefix (p ++ "_") (fst kv) then
            dict_set (string_from (String.length (p ++ "_")) (fst kv))
                     (decode_field json_loads (snd kv)) fields
          else fields) task acc)
  = Some (decode_field json_loads v).
Proof.
  revert acc. induction task as [|[key value] task IH]; intros acc ND H; [discriminate|].
  simpl in H. inversion ND as [|? ? Hnotin ND']; subst.
  simpl fold_left. simpl fst. simpl snd.
  destruct (String.eqb_spec key ((p ++ "_") ++ k)) as [E|NE].
  - injection H as <-. subst key.
    rewrite prefix_append, string_from_append.
    rewrite integration_fields_absent by now apply dict_get_None.
    apply dict_get_set_same.
  - now apply IH.
Qed.

Lemma get_integration_fields_get (p k : string) (task : dict) :
  distinct_keys task = true ->
  dict_get k (get_integration_fields json_loads p task)
  = option_map (decode_field json_loads) (dict_get ((p ++ "_") ++ k) task).
Proof.
  intros D. apply distinct_keys_NoDup in D. unfold get_integration_fields.
  destruct (dict_get ((p ++ "_") ++ k) task) as [v|] eqn:E; simpl option_map.
  - now apply integration_fields_present.
  - now apply integration_fields_absent.
Qed.

Lemma last_stm_hash_read (task : dict) :
  distinct_keys task = true ->
  last_stm_hash json_loads task
  = match dict_get "sync_last_stm_hash" task with
    | Some v => decode_field json_loads v
    | None => JStr ""
    end.
Proof.
  intros D. unfold last_stm_hash, get_or.
  rewrite (get_integration_fields_get "sync" "last_stm_hash" task D).
  change (("sync" ++ "_") ++ "last_stm_hash") with "sync_last_stm_hash".
  now destruct (dict_get "sync_last_stm_hash" task).
Qed.

Lemma last_external_hash_read (task : dict) :
  distinct_keys task = true ->
  last_external_hash json_loads task
  = match dict_get "sync_last_external_hash" task with
    | Some v => decode_field json_loads v
    | None => JStr ""
    end.
Proof.
  intros D. unfold last_external_hash, get_or.
  rewrite (get_integration_fields_get "sync" "last_external_hash" task D).
  change (("sync" ++ "_") ++ "last_external_hash") with "sync_last_external_hash".
  now destruct (dict_get "sync_last_external_hash" task).
Qed.

(** A task without the two hash fields reads as never synced. *)
Lemma last_hashes_absent (task : dict) :
  dict_get "sync_last_stm_hash" task = None ->
  dict_get "sync_last_external_hash" task = None ->
  last_stm_hash json_loads task = JStr ""
  /\ last_external_hash json_loads task = JStr "".
Proof.
  intros H1 H2. unfold last_stm_hash, last_external_hash, get_or, get_integration_fields.
  rewrite (integration_fields_absent "sync" "last_stm_hash" task [] H1).
  rewrite (integration_fields_absent "sync" "last_external_hash" task [] H2).
  split; reflexivity.
Qed.

Lemma stm_changed_false (task : dict) :
  stm_changed json_loads task = false
  <-> last_stm_hash json_loads task = JStr (current_stm_hash task).
Proof.
  unfold stm_changed. rewrite negb_false_iff. apply py_eq_str.
Qed.

Lemma stm_changed_true (task : dict) :
  stm_changed json_loads task = true
  <-> last_stm_hash json_loads task <> JStr (current_stm_hash task).
Proof.
  unfold stm_changed. rewrite negb_true_iff, <- not_true_iff_false.
  now rewrite py_eq_str.
Qed.

Lemma external_changed_false (task ext : dict) :
  external_changed json_loads task ext = false
  <-> last_external_hash json_loads task = JStr (current_external_hash ext).
Proof.
  unfold external_changed. rewrite negb_false_iff. apply py_eq_str.
Qed.

Lemma external_changed_true (task ext : dict) :
  external_changed json_loads task ext = true
  <-> last_external_hash json_loads task <> JStr (current_external_hash ext).
Proof.
  unfold external_changed. rewrite negb_true_iff, <- not_true_iff_false.
  now rewrite py_eq_str.
Qed.

End Fields.

(** What the two calls of [update_task_fields] in [sync_task_bidirectional] store. *)
Lemma update_local_fields (h now : string) (task_id : Z) (ws : workspace) (task : dict) :
  find_task task_id ws = Some task ->
  update_task_fields "sync" task_id
    [("last_stm_hash", JStr h); ("last_external_sync", JStr now)] ws
  = (Return tt,
     store_task task_id
       (dict_set "sync_last_external_sync" (JStr now)
          (dict_set "sync_last_stm_hash" (JStr h) task)) ws).
Proof.
  intros F. unfold update_task_fields, stm_update. rewrite F.
  cbn [map fst snd field_value apply_assignments].
  rewrite split_assignment_join by reflexivity. cbn [apply_assignments].
  rewrite split_assignment_join by reflexivity. reflexivity.
Qed.

Lemma update_external_fields
    (h now : string) (ext : dict) (task_id : Z) (ws : workspace) (task : dict) :
  find_task task_id ws = Some task ->
  update_task_fields "sync" task_id
    [("last_external_hash", JStr h); ("last_external_sync", JStr now);
     ("external_data", JDict ext)] ws
  = (Return tt,
     store_task task_id
       (dict_set "sync_external_data" (JStr (json_dumps false (JDict ext)))
          (dict_set "sync_last_external_sync" (JStr now)
             (dict_set "sync_last_external_hash" (JStr h) task))) ws).
Proof.
  intros F. unfold update_task_fields, stm_update. rewrite F.
  cbn [map fst snd field_value apply_assignments].
  rewrite split_assignment_join by reflexivity. cbn [apply_assignments].
  rewrite split_assignment_join by reflexivity. cbn [apply_assignments].
  rewrite split_assignment_join by reflexivity. reflexivity.
Qed.

(* ================================================================== *)
(** * [sync_task_bidirectional], branch by branch *)
(* ================================================================== *)

Section Sync.

Variable json_loads : string -> option json.

Local Abbreviation sync := (sync_task_bidirectional json_loads).

Lemma sync_missing_task (now : string) (task_id : Z) (ext : dict) (ws : workspace) :
  find_task task_id ws = None ->
  sync now task_id ext ws = (Raise RuntimeError, ws).
Proof.
  intros F. unfold sync_task_bidirectional, bind, get_task, stm_show.
  now rewrite F.
Qed.

Lemma sync_both_changed
    (now : string) (task_id : Z) (ext : dict) (ws : workspace) (task : dict) :
  find_task task_id ws = Some task ->
  stm_changed json_loads task = true ->
  external_changed json_loads task ext = true ->
  sync now task_id ext ws
  = (Return (SyncResult false false ["Both STM and external system have changes"]),
     ws).
Proof.
  intros F S E. unfold sync_task_bidirectional, bind, get_task, stm_show.
  rewrite F, S, E. reflexivity.
Qed.

Lemma sync_external_changed
    (now : string) (task_id : Z) (ext : dict) (ws : workspace) (task : dict)
    (tags_c : list string) :
  find_task task_id ws = Some task ->
  stm_changed json_loads task = false ->
  external_changed json_loads task ext = true ->
  tags_conflict task ext = Some tags_c ->
  sync now task_id ext ws
  = (Return (SyncResult true false
               (title_conflict task ext ++ status_conflict task ext ++ tags_c)%list),
     store_task task_id
       (dict_set "sync_external_data" (JStr (json_dumps false (JDict ext)))
          (dict_set "sync_last_external_sync" (JStr now)
             (dict_set "sync_last_external_hash"
                (JStr (current_external_hash ext)) task))) ws).
Proof.
  intros F S E T. unfold sync_task_bidirectional, bind, get_task, stm_show.
  rewrite F, S, E, T. cbn [andb negb].
  rewrite (update_external_fields _ _ _ _ _ _ F). reflexivity.
Qed.

(** When the labels or the tags cannot be made a set, the call raises before
    anything is written. *)
Lemma sync_external_changed_type_error
    (now : string) (task_id : Z) (ext : dict) (ws : workspace) (task : dict) :
  find_task task_id ws = Some task ->
  stm_changed json_loads task = false ->
  external_changed json_loads task ext = true ->
  tags_conflict task ext = None ->
  sync now task_id ext ws = (Raise TypeError, ws).
Proof.
  intros F S E T. unfold sync_task_bidirectional, bind, get_task, stm_show.
  rewrite F, S, E, T. reflexivity.
Qed.

Lemma sync_local_changed
    (now : string) (task_id : Z) (ext : dict) (ws : workspace) (task : dict) :
  find_task task_id ws = Some task ->
  stm_changed json_loads task = true ->
  external_changed json_loads task ext = false ->
  sync now task_id ext ws
  = (Return (SyncResult false true []),
     store_task task_id
       (dict_set "sync_last_external_sync" (JStr now)
          (dict_set "sync_last_stm_hash" (JStr (current_stm_hash task)) task)) ws).
Proof.
  intros F S E. unfold sync_task_bidirectional, bind, get_task, stm_show.
  rewrite F, S, E. cbn [andb negb].
  rewrite (update_local_fields _ _ _ _ _ F). reflexivity.
Qed.

Lemma sync_in_sync
    (now : string) (task_id : Z) (ext : dict) (ws : workspace) (task : dict) :
  find_task task_id ws = Some task ->
  stm_changed json_loads task = false ->
  external_changed json_loads task ext = false ->
  sync now task_id ext ws = (Return (SyncResult false false []), ws).
Proof.
  intros F S E. unfold sync_task_bidirectional, bind, get_task, stm_show.
  rewrite F, S, E. reflexivity.
Qed.

(** The fields the hashes are computed from are not integration fields. *)
Lemma stm_data_after_set (k : string) (v : json) (task : dict) :
  k <> "title" -> k <> "status" -> k <> "tags" ->
  stm_data (dict_set k v task) = stm_data task.
Proof.
  intros H1 H2 H3. unfold stm_data, get_or.
  now rewrite !dict_get_set_other by assumption.
Qed.

(** C1, as the code has it.  When the local hash is the stored one and the
    external hash is not, and the labels and the tags can be made sets, one call
    returns [stm_updated = True], [external_updated = False] and as conflicts, in
    this order, the title, status and tags messages of the fields that differ
    (possibly none); it stores the new external hash and the timestamp and leaves
    the stored local hash as it was. *)
Theorem external_changed_refreshes_external_hash
    (now : string) (task_id : Z) (ext : dict) (ws : workspace) (task : dict)
    (tags_c : list string) :
  find_task task_id ws = Some task ->
  distinct_keys task = true ->
  last_stm_hash json_loads task = JStr (current_stm_hash task) ->
  last_external_hash json_loads task <> JStr (current_external_hash ext) ->
  tags_conflict task ext = Some tags_c ->
  exists task' : dict,
    sync now task_id ext ws
    = (Return (SyncResult true false
                 (title_conflict task ext ++ status_conflict task ext ++ tags_c)%list),
       store_task task_id task' ws)
    /\ find_task task_id (store_task task_id task' ws) = Some task'
    /\ last_external_hash json_loads task' = JStr (current_external_hash ext)
    /\ last_external_sync task' = Some (JStr now)
    /\ last_stm_hash json_loads task' = last_stm_hash json_loads task.
Proof.
  intros F D S E T.
  apply stm_changed_false in S. apply external_changed_true in E.
  eexists. split; [exact (sync_external_changed now _ _ _ _ _ F S E T)|].
  split; [now apply (find_store_same _ _ task)|].
  assert (D' : forall a b c,
             distinct_keys
               (dict_set "sync_external_data" a
                  (dict_set "sync_last_external_sync" b
                     (dict_set "sync_last_external_hash" c task))) = true)
    by (intros; now repeat apply dict_set_distinct).
  split; [|split].
  - rewrite last_external_hash_read by apply D'.
    rewrite !dict_get_set_other by discriminate.
    rewrite dict_get_set_same. apply decode_field_hash.
  - unfold last_external_sync.
    rewrite dict_get_set_other by discriminate. apply dict_get_set_same.
  - rewrite !last_stm_hash_read by (apply D' || exact D).
    now rewrite !dict_get_set_other by discriminate.
Qed.

(** C2.  When both hashes differ from the stored ones, one call returns both flags
    [False] and the single conflict entry for a change on both sides, and the
    workspace, hence every stored field, is what it was: no update is issued. *)
Theorem both_changed_reports_conflict
    (now : string) (task_id : Z) (ext : dict) (ws : workspace) (task : dict) :
  find_task task_id ws = Some task ->
  last_stm_hash json_loads task <> JStr (current_stm_hash task) ->
  last_external_hash json_loads task <> JStr (current_external_hash ext) ->
  sync now task_id ext ws
  = (Return (SyncResult false false ["Both STM and external system have changes"]),
     ws).
Proof.
  intros F S E. apply stm_changed_true in S. apply external_changed_true in E.
  now apply sync_both_changed with task.
Qed.

(** C4.  When the local hash differs from the stored one and the external hash
    does not, one call returns [stm_updated = False], [external_updated = True]
    and no conflict, and stores the new local hash and the timestamp: a second
    call would find the local side unchanged. *)
Theorem local_changed_updates_local_hash
    (now : string) (task_id : Z) (ext : dict) (ws : workspace) (task : dict) :
  find_task task_id ws = Some task ->
  distinct_keys task = true ->
  last_stm_hash json_loads task <> JStr (current_stm_hash task) ->
  last_external_hash json_loads task = JStr (current_external_hash ext) ->
  exists task' : dict,
    sync now task_id ext ws
    = (Return (SyncResult false true []), store_task task_id task' ws)
    /\ find_task task_id (store_task task_id task' ws) = Some task'
    /\ last_stm_hash json_loads task' = JStr (current_stm_hash task)
    /\ last_external_sync task' = Some (JStr now)
    /\ stm_changed json_loads task' = false.
Proof.
  intros F D S E.
  apply stm_changed_true in S. apply external_changed_false in E.
  eexists. split; [exact (sync_local_changed now _ _ _ _ F S E)|].
  split; [now apply (find_store_same _ _ task)|].
  assert (D' : forall a b,
             distinct_keys
               (dict_set "sync_last_external_sync" a
                  (dict_set "sync_last_stm_hash" b task)) = true)
    by (intros; now repeat apply dict_set_distinct).
  assert (R : forall b,
             last_stm_hash json_loads
               (dict_set "sync_last_external_sync" (JStr now)
                  (dict_set "sync_last_stm_hash" (JStr (current_stm_hash b)) task))
             = JStr (current_stm_hash b)).
  { intros b. rewrite last_stm_hash_read by apply D'.
    rewrite dict_get_set_other by discriminate.
    rewrite dict_get_set_same. apply decode_field_hash. }
  split; [apply R|]. split.
  - unfold last_external_sync. apply dict_get_set_same.
  - apply stm_changed_false. rewrite R. unfold current_stm_hash.
    now rewrite !stm_data_after_set by discriminate.
Qed.

(** C5.  When both hashes are the stored ones, one call returns both flags
    [False] and no conflict and leaves the workspace as it was. *)
Theorem in_sync_changes_nothing
    (now : string) (task_id : Z) (ext : dict) (ws : workspace) (task : dict) :
  find_task task_id ws = Some task ->
  last_stm_hash json_loads task = JStr (current_stm_hash task) ->
  last_external_hash json_loads task = JStr (current_external_hash ext) ->
  sync now task_id ext ws = (Return (SyncResult false false []), ws).
Proof.
  intros F S E. apply stm_changed_false in S. apply external_changed_false in E.
  now apply sync_in_sync with task.
Qed.

(** C6.  In the local-changed case only the fields [sync_last_stm_hash] and
    [sync_last_external_sync] of the task are written: the stored external hash,
    every other field of the task and every other task keep their values. *)
Theorem local_changed_keeps_external_hash
    (now : string) (task_id : Z) (ext : dict) (ws : workspace) (task : dict) :
  find_task task_id ws = Some task ->
  distinct_keys task = true ->
  last_stm_hash json_loads task <> JStr (current_stm_hash task) ->
  last_external_hash json_loads task = JStr (current_external_hash ext) ->
  exists (task' : dict) (ws' : workspace),
    snd (sync now task_id ext ws) = ws'
    /\ find_task task_id ws' = Some task'
    /\ last_external_hash json_loads task' = last_external_hash json_loads task
    /\ (forall k : string,
          k <> "sync_last_stm_hash" -> k <> "sync_last_external_sync" ->
          dict_get k task' = dict_get k task)
    /\ (forall other : Z, other <> task_id -> find_task other ws' = find_task other ws).
Proof.
  intros F D S E.
  apply stm_changed_true in S. apply external_changed_false in E.
  rewrite (sync_local_changed now _ _ _ _ F S E). simpl snd.
  do 2 eexists. split; [reflexivity|].
  split; [now apply (find_store_same _ _ task)|].
  assert (K : forall k : string,
             k <> "sync_last_stm_hash" -> k <> "sync_last_external_sync" ->
             dict_get k
               (dict_set "sync_last_external_sync" (JStr now)
                  (dict_set "sync_last_stm_hash" (JStr (current_stm_hash task)) task))
             = dict_get k task).
  { intros k H1 H2. rewrite !dict_get_set_other by congruence. reflexivity. }
  split; [|split].
  - rewrite !last_external_hash_read
      by (exact D || now repeat apply dict_set_distinct).
    now rewrite K by discriminate.
  - exact K.
  - intros other NE. now apply find_store_other.
Qed.

(** C7.  The result of a call is a function of the task store, the task id and
    the external data alone: two calls on the same unmutated inputs return the
    same result (or raise the same exception), whatever the clock reads. *)
Theorem sync_result_deterministic
    (now1 now2 : string) (task_id : Z) (ext : dict) (ws : workspace) :
  fst (sync now1 task_id ext ws) = fst (sync now2 task_id ext ws).
Proof.
  destruct (find_task task_id ws) as [task|] eqn:F.
  2: { now rewrite !sync_missing_task. }
  destruct (stm_changed json_loads task) eqn:S;
    destruct (external_changed json_loads task ext) eqn:E.
  - now rewrite !(sync_both_changed _ _ _ _ _ F S E).
  - now rewrite !(sync_local_changed _ _ _ _ _ F S E).
  - destruct (tags_conflict task ext) as [tags_c|] eqn:T.
    + now rewrite !(sync_external_changed _ _ _ _ _ _ F S E T).
    + now rewrite !(sync_external_changed_type_error _ _ _ _ _ F S E T).
  - now rewrite !(sync_in_sync _ _ _ _ _ F S E).
Qed.

(** C8.  A task that carries neither stored hash reads both as the empty string;
    the digests have sixteen characters, so both sides count as changed and the
    call takes the conflict branch: both flags [False], one conflict entry, and
    the workspace, still without stored hashes, as it was. *)
Theorem first_sync_is_conflict
    (now : string) (task_id : Z) (ext : dict) (ws : workspace) (task : dict) :
  find_task task_id ws = Some task ->
  dict_get "sync_last_stm_hash" task = None ->
  dict_get "sync_last_external_hash" task = None ->
  last_stm_hash json_loads task = JStr ""
  /\ last_external_hash json_loads task = JStr ""
  /\ String.length (current_stm_hash task) = 16
  /\ String.length (current_external_hash ext) = 16
  /\ sync now task_id ext ws
     = (Return (SyncResult false false ["Both STM and external system have changes"]),
        ws).
Proof.
  intros F H1 H2.
  destruct (last_hashes_absent json_loads task H1 H2) as [L1 L2].
  split; [exact L1|]. split; [exact L2|].
  split; [apply compute_sync_hash_length|]. split; [apply compute_sync_hash_length|].
  apply sync_both_changed with task; [exact F| |].
  - apply stm_changed_true. rewrite L1. intros C. apply JStr_inj in C.
    exact (compute_sync_hash_not_empty _ (eq_sym C)).
  - apply external_changed_true. rewrite L2. intros C. apply JStr_inj in C.
    exact (compute_sync_hash_not_empty _ (eq_sym C)).
Qed.

End Sync.

(* ================================================================== *)
(** * An external change that raises no conflict *)
(* ================================================================== *)

(** C9.  The conflicts of the external-changed branch can be empty.  On
    [synced_task] against [external_swapped] the labels are the tags in another
    order: the printed list, and with it the external hash, differs from the
    stored one, while title and status are equal and the label set is the tag
    set.  The branch runs, appends nothing, and stores the new external hash. *)
Theorem external_changed_without_conflict
    (json_loads : string -> option json) (now : string) :
  get_or "labels" external_swapped (JList []) <> get_or "tags" synced_task (JList [])
  /\ compute_sync_hash (external_data external_swapped)
     <> compute_sync_hash (external_data external_same)
  /\ stm_changed json_loads synced_task = false
  /\ external_changed json_loads synced_task external_swapped = true
  /\ title_conflict synced_task external_swapped = []
  /\ status_conflict synced_task external_swapped = []
  /\ tags_conflict synced_task external_swapped = Some []
  /\ exists task' : dict,
       sync_task_bidirectional json_loads now 1 external_swapped [(1%Z, synced_task)]
       = (Return (SyncResult true false []), [(1%Z, task')])
       /\ last_external_hash json_loads synced_task
          = JStr (compute_sync_hash (external_data external_same))
       /\ last_external_hash json_loads task'
          = JStr (compute_sync_hash (external_data external_swapped))
       /\ last_external_sync task' = Some (JStr now).
Proof.
  split; [intros C; vm_compute in C; discriminate C|].
  split; [intros C; vm_compute in C; discriminate C|].
  split; [vm_compute; reflexivity|].
  split; [vm_compute; reflexivity|].
  split; [vm_compute; reflexivity|].
  split; [vm_compute; reflexivity|].
  split; [vm_compute; reflexivity|].
  eexists. split; [vm_compute; reflexivity|].
  split; [vm_compute; reflexivity|].
  split; vm_compute; reflexivity.
Qed.

(* ================================================================== *)
(** * [add_sync_event] *)
(* ================================================================== *)

Lemma limit_history_snoc (old : list json) (e : json) :
  limit_history (old ++ [e])%list = (skipn (List.length old - 99) old ++ [e])%list.
Proof.
  unfold limit_history. rewrite length_app. simpl List.length.
  destruct (Nat.ltb_spec 100 (List.length old + 1)) as [H|H].
  - rewrite skipn_app.
    replace (List.length old + 1 - 100) with (List.length old - 99) by lia.
    replace (List.length old - 99 - List.length old) with 0 by lia.
    reflexivity.
  - replace (List.length old - 99) with 0 by lia. reflexivity.
Qed.

Section History.

Variable json_loads : string -> option json.

(** C10.  [add_sync_event] bounds the history it writes back.  With [old] the
    history read from the task, the list written is [old] plus the new event cut
    to its last 100 entries: it has at most 100 entries and the new event is its
    last one.  When what is read is not a list, [append] raises and nothing is
    written. *)
Theorem add_sync_event_bounds_history
    (task_id : Z) (event : dict) (ws : workspace) (task : dict) :
  find_task task_id ws = Some task ->
  match sync_history json_loads task with
  | JList old =>
      exists kept dropped : list json,
        (old ++ [JDict event] = dropped ++ kept)%list
        /\ kept = limit_history (old ++ [JDict event])%list
        /\ List.length kept = Nat.min 100 (S (List.length old))
        /\ List.length kept <= 100
        /\ last kept JNull = JDict event
        /\ add_sync_event json_loads task_id event ws
           = (Return tt,
              store_task task_id
                (dict_set "pms_sync_history"
                   (JStr (json_dumps false (JList kept))) task) ws)
  | _ => add_sync_event json_loads task_id event ws = (Raise AttributeError, ws)
  end.
Proof.
  intros F. unfold add_sync_event, bind, get_task, stm_show. rewrite F.
  destruct (sync_history json_loads task) as [| | | |old|]; try reflexivity.
  exists (limit_history (old ++ [JDict event])%list), (firstn (List.length old - 99) old).
  rewrite limit_history_snoc.
  split; [now rewrite app_assoc, firstn_skipn|].
  split; [reflexivity|].
  assert (L : List.length (skipn (List.length old - 99) old ++ [JDict event])%list
              = Nat.min 100 (S (List.length old))).
  { rewrite length_app, length_skipn. simpl List.length. lia. }
  split; [exact L|]. split; [rewrite L; lia|].
  split; [apply last_last|].
  unfold update_task_fields, stm_update. rewrite F.
  cbn [map fst snd field_value apply_assignments].
  rewrite split_assignment_join by reflexivity. reflexivity.
Qed.

End History.

(* ================================================================== *)
(** * The claims on the sample tasks *)
(* ================================================================== *)

(** C1 as the specification states it, with both flags [False] and a conflicts
    list that is never empty, fails: on [synced_task] against [external_swapped]
    the call returns [stm_updated = True] (and no conflict at all). *)
Lemma external_changed_claim_refuted :
  ~ (forall (json_loads : string -> option json) (now : string) (task_id : Z)
            (ext : dict) (ws : workspace) (task : dict),
        find_task task_id ws = Some task ->
        last_stm_hash json_loads task = JStr (current_stm_hash task) ->
        last_external_hash json_loads task <> JStr (current_external_hash ext) ->
        exists (r : sync_result) (ws' : workspace),
          sync_task_bidirectional json_loads now task_id ext ws = (Return r, ws')
          /\ stm_updated r = false
          /\ external_updated r = false
          /\ conflicts r <> []).
Proof.
  intros H.
  destruct (H sample_loads sample_now 1%Z external_swapped
              [(1%Z, synced_task)] synced_task)
    as (r & ws' & E & U & _).
  - reflexivity.
  - vm_compute. reflexivity.
  - intros C. vm_compute in C. discriminate C.
  - vm_compute in E. injection E as E _. subst r. discriminate U.
Qed.

(** The external status moved to review while the task stayed as synced: the
    status message is the one conflict, and the external hash is refreshed. *)
Lemma external_changed_refreshes_external_hash_witness :
  exists task' : dict,
    sync_task_bidirectional sample_loads sample_now 1 external_review
      [(1%Z, synced_task)]
    = (Return (SyncResult true false
                 (title_conflict synced_task external_review
                  ++ status_conflict synced_task external_review ++ [])%list),
       store_task 1 task' [(1%Z, synced_task)])
    /\ find_task 1 (store_task 1 task' [(1%Z, synced_task)]) = Some task'
    /\ last_external_hash sample_loads task'
       = JStr (current_external_hash external_review)
    /\ last_external_sync task' = Some (JStr sample_now)
    /\ last_stm_hash sample_loads task' = last_stm_hash sample_loads synced_task.
Proof.
  apply (external_changed_refreshes_external_hash sample_loads sample_now 1%Z
           external_review [(1%Z, synced_task)] synced_task []).
  - reflexivity.
  - reflexivity.
  - vm_compute. reflexivity.
  - intros C. vm_compute in C. discriminate C.
  - vm_compute. reflexivity.
Defined.

Lemma both_changed_reports_conflict_witness :
  sync_task_bidirectional sample_loads sample_now 1 external_same [(1%Z, fresh_task)]
  = (Return (SyncResult false false ["Both STM and external system have changes"]),
     [(1%Z, fresh_task)]).
Proof.
  apply (both_changed_reports_conflict sample_loads sample_now 1%Z external_same
           [(1%Z, fresh_task)] fresh_task).
  - reflexivity.
  - intros C. vm_compute in C. discriminate C.
  - intros C. vm_compute in C. discriminate C.
Defined.

Lemma compute_sync_hash_order_independent_witness :
  json_dumps true (JDict sample_snapshot)
  = json_dumps true (JDict sample_snapshot_reordered)
  /\ compute_sync_hash sample_snapshot = compute_sync_hash sample_snapshot_reordered.
Proof.
  apply (compute_sync_hash_order_independent sample_snapshot sample_snapshot_reordered).
  - reflexivity.
  - unfold sample_snapshot, sample_snapshot_reordered.
    eapply perm_trans; [apply perm_skip, perm_swap|apply perm_swap].
Defined.

Lemma local_changed_updates_local_hash_witness :
  exists task' : dict,
    sync_task_bidirectional sample_loads sample_now 1 external_same
      [(1%Z, edited_task)]
    = (Return (SyncResult false true []), store_task 1 task' [(1%Z, edited_task)])
    /\ find_task 1 (store_task 1 task' [(1%Z, edited_task)]) = Some task'
    /\ last_stm_hash sample_loads task' = JStr (current_stm_hash edited_task)
    /\ last_external_sync task' = Some (JStr sample_now)
    /\ stm_changed sample_loads task' = false.
Proof.
  apply (local_changed_updates_local_hash sample_loads sample_now 1%Z external_same
           [(1%Z, edited_task)] edited_task).
  - reflexivity.
  - reflexivity.
  - intros C. vm_compute in C. discriminate C.
  - vm_compute. reflexivity.
Defined.

Lemma in_sync_changes_nothing_witness :
  sync_task_bidirectional sample_loads sample_now 1 external_same [(1%Z, synced_task)]
  = (Return (SyncResult false false []), [(1%Z, synced_task)]).
Proof.
  apply (in_sync_changes_nothing sample_loads sample_now 1%Z external_same
           [(1%Z, synced_task)] synced_task).
  - reflexivity.
  - vm_compute. reflexivity.
  - vm_compute. reflexivity.
Defined.

Lemma local_changed_keeps_external_hash_witness :
  exists (task' : dict) (ws' : workspace),
    snd (sync_task_bidirectional sample_loads sample_now 1 external_same
           [(1%Z, edited_task)]) = ws'
    /\ find_task 1 ws' = Some task'
    /\ last_external_hash sample_loads task' = last_external_hash sample_loads edited_task
    /\ (forall k : string,
          k <> "sync_last_stm_hash" -> k <> "sync_last_external_sync" ->
          dict_get k task' = dict_get k edited_task)
    /\ (forall other : Z,
          other <> 1%Z -> find_task other ws' = find_task other [(1%Z, edited_task)]).
Proof.
  apply (local_changed_keeps_external_hash sample_loads sample_now 1%Z external_same
           [(1%Z, edited_task)] edited_task).
  - reflexivity.
  - reflexivity.
  - intros C. vm_compute in C. discriminate C.
  - vm_compute. reflexivity.
Defined.

Lemma first_sync_is_conflict_witness :
  last_stm_hash sample_loads fresh_task = JStr ""
  /\ last_external_hash sample_loads fresh_task = JStr ""
  /\ String.length (current_stm_hash fresh_task) = 16
  /\ String.length (current_external_hash external_same) = 16
  /\ sync_task_bidirectional sample_loads sample_now 1 external_same
       [(1%Z, fresh_task)]
     = (Return (SyncResult false false ["Both STM and external system have changes"]),
        [(1%Z, fresh_task)]).
Proof.
  apply (first_sync_is_conflict sample_loads sample_now 1%Z external_same
           [(1%Z, fresh_task)] fresh_task); reflexivity.
Defined.

(** The stored history is the text of the empty list; the event becomes its only
    entry. *)
Lemma add_sync_event_bounds_history_witness :
  match sync_history sample_loads history_task with
  | JList old =>
      exists kept dropped : list json,
        (old ++ [JDict sample_event] = dropped ++ kept)%list
        /\ kept = limit_history (old ++ [JDict sample_event])%list
        /\ List.length kept = Nat.min 100 (S (List.length old))
        /\ List.length kept <= 100
        /\ last kept JNull = JDict sample_event
        /\ add_sync_event sample_loads 1 sample_event [(1%Z, history_task)]
           = (Return tt,
              store_task 1
                (dict_set "pms_sync_history"
                   (JStr (json_dumps false (JList kept))) history_task)
                [(1%Z, history_task)])
  | _ => add_sync_event sample_loads 1 sample_event [(1%Z, history_task)]
         = (Raise AttributeError, [(1%Z, history_task)])
  end.
Proof.
  apply (add_sync_event_bounds_history sample_loads 1%Z sample_event
           [(1%Z, history_task)] history_task).
  reflexivity.
Defined.

(** On [history_task] the list branch is the one taken. *)
Example sync_history_sample : sync_history sample_loads history_task = JList [].
Proof. reflexivity. Qed.

(** The digest of the FIPS 180-4 one-block example message, and the first and
    last round constants as the standard tabulates them. *)
Example hexdigest_abc :
  Sha256.hexdigest "abc"
  = "ba7816bf8f01cfea414140de5dae2223b00361a396177a9cb410ff61f20015ad".
Proof. vm_compute. reflexivity. Qed.

Example round_constants :
  nth 0 Sha256.K 0%N = 0x428a2f98%N /\ nth 63 Sha256.K 0%N = 0xc67178f2%N
  /\ List.length Sha256.K = 64 /\ nth 0 Sha256.H0 0%N = 0x6a09e667%N.
Proof. repeat split. Qed.

(* ================================================================== *)
(** * More on [compute_sync_hash] *)
(* ================================================================== *)

Lemma json_induction (P : json -> Prop) :
  P JNull -> (forall b, P (JBool b)) -> (forall n, P (JInt n)) ->
  (forall s, P (JStr s)) ->
  (forall l, Forall P l -> P (JList l)) ->
  (forall d, Forall (fun kv => P (snd kv)) d -> P (JDict d)) ->
  forall v, P v.
Proof.
  intros HN HB HI HS HL HD. fix IH 1. intros [|b|n|s|l|d].
  - exact HN.
  - apply HB.
  - apply HI.
  - apply HS.
  - apply HL. induction l as [|x l IHl]; constructor; [apply IH|exact IHl].
  - apply HD. induction d as [|[k x] d IHd]; constructor; [apply IH|exact IHd].
Qed.

Lemma json_dumps_list (sort_keys : bool) (l : list json) :
  json_dumps sort_keys (JList l)
  = "[" ++ String.concat ", " (map (json_dumps sort_keys) l) ++ "]".
Proof. reflexivity. Qed.

Lemma json_dumps_dict (sort_keys : bool) (d : dict) :
  json_dumps sort_keys (JDict d)
  = "{" ++ String.concat ", "
             (map encode_item
                (let printed :=
                   map (fun kv => (fst kv, json_dumps sort_keys (snd kv))) d in
                 if sort_keys then sort_items printed else printed)) ++ "}".
Proof. reflexivity. Qed.

Lemma json_dumps_reordered (a b : json) :
  reordered a b -> json_dumps true a = json_dumps true b.
Proof.
  revert b. induction a as [| | | |l IHl|d IHd] using json_induction;
    intros b' R; inversion R as [v|l0 l' HF|d0 d' e HF HP HD]; subst;
    try reflexivity.
  - rewrite !json_dumps_list. do 3 f_equal.
    clear R. induction HF as [|x y l l' Hxy HF IHF]; [reflexivity|].
    inversion IHl as [|? ? Px Pl]; subst. simpl. f_equal; [now apply Px|now apply IHF].
  - rewrite !json_dumps_dict. cbv zeta. do 4 f_equal.
    assert (E : map (fun kv => (fst kv, json_dumps true (snd kv))) d
                = map (fun kv => (fst kv, json_dumps true (snd kv))) d').
    { clear R HP HD. induction HF as [|x y l l' [Hk Hv] HF IHF]; [reflexivity|].
      inversion IHd as [|? ? Px Pl]; subst. simpl.
      f_equal; [rewrite Hk; f_equal; now apply Px|now apply IHF]. }
    rewrite E. apply sort_items_permutation.
    + now apply Permutation_map.
    + rewrite <- E, map_map. simpl. now apply distinct_keys_NoDup.
Qed.

(** X1.  [compute_sync_hash] is independent of the order of keys at every depth:
    two snapshots that differ only in the order of the items of the dicts they
    hold, nested ones included, are printed alike and have the same digest. *)
Theorem compute_sync_hash_nested_order_independent (a b : dict) :
  reordered (JDict a) (JDict b) ->
  json_dumps true (JDict a) = json_dumps true (JDict b)
  /\ compute_sync_hash a = compute_sync_hash b.
Proof.
  intros R. apply json_dumps_reordered in R.
  split; [exact R|]. unfold compute_sync_hash. now rewrite R.
Qed.

Lemma compute_sync_hash_nested_order_independent_witness :
  json_dumps true (JDict sample_nested) = json_dumps true (JDict sample_nested_reordered)
  /\ compute_sync_hash sample_nested = compute_sync_hash sample_nested_reordered.
Proof.
  apply (compute_sync_hash_nested_order_independent sample_nested sample_nested_reordered).
  apply reordered_dict with
    (d' := [ ("title", JDict [("de", JStr "Anmeldung"); ("en", JStr "Login")]);
             ("status", JStr "pending");
             ("tags", JList [JDict [("color", JStr "red"); ("name", JStr "security")]]) ]).
  - constructor; [split; [reflexivity|]|constructor; [split; [reflexivity|]|
      constructor; [split; [reflexivity|]|constructor]]].
    + apply reordered_dict with (d' := [("en", JStr "Login"); ("de", JStr "Anmeldung")]).
      * constructor; [split; [reflexivity|apply reordered_same]|].
        constructor; [split; [reflexivity|apply reordered_same]|constructor].
      * apply perm_swap.
      * reflexivity.
    + apply reordered_same.
    + apply reordered_list. constructor; [|constructor].
      apply reordered_dict
        with (d' := [("name", JStr "security"); ("color", JStr "red")]).
      * constructor; [split; [reflexivity|apply reordered_same]|].
        constructor; [split; [reflexivity|apply reordered_same]|constructor].
      * apply perm_swap.
      * reflexivity.
  - eapply perm_trans; [apply perm_skip, perm_swap|apply perm_swap].
  - reflexivity.
Defined.

Lemma hex_digit_is_hex (n : N) :
  existsb (Ascii.eqb (Sha256.hex_digit n)) (list_ascii_of_string "0123456789abcdef")
  = true.
Proof.
  destruct n as [|p]; [reflexivity|].
  do 4 (try destruct p as [p|p|]); reflexivity.
Qed.

(** X2.  The digest is always sixteen characters, each a lower-case hexadecimal
    digit. *)
Theorem compute_sync_hash_is_hex (data : dict) :
  String.length (compute_sync_hash data) = 16
  /\ forallb (fun c => existsb (Ascii.eqb c) (list_ascii_of_string "0123456789abcdef"))
             (list_ascii_of_string (compute_sync_hash data)) = true.
Proof.
  split; [apply compute_sync_hash_length|].
  destruct (compute_sync_hash_shape data) as (w1 & w2 & E). rewrite E.
  unfold Sha256.hex8, Sha256.nibble.
  cbn [list_ascii_of_string forallb].
  rewrite !hex_digit_is_hex. reflexivity.
Qed.

(* ================================================================== *)
(** * What a sync call leaves alone, and what a second call finds *)
(* ================================================================== *)

Lemma store_task_ids (task_id : Z) (t : dict) (ws : workspace) :
  map fst (store_task task_id t ws) = map fst ws.
Proof.
  induction ws as [|[i t'] ws IH]; simpl; [reflexivity|].
  destruct (Z.eqb i task_id); simpl; [reflexivity|now rewrite IH].
Qed.

Lemma stm_data_frame (task task' : dict) :
  dict_get "title" task' = dict_get "title" task ->
  dict_get "status" task' = dict_get "status" task ->
  dict_get "tags" task' = dict_get "tags" task ->
  stm_data task' = stm_data task.
Proof.
  intros H1 H2 H3. unfold stm_data, get_or. now rewrite H1, H2, H3.
Qed.

Section SyncFrame.

Variable json_loads : string -> option json.

Local Abbreviation sync := (sync_task_bidirectional json_loads).

(** The result of a call, read off the task it finds. *)
Lemma sync_result_of_task
    (now : string) (task_id : Z) (ext : dict) (ws : workspace) (task : dict) :
  find_task task_id ws = Some task ->
  fst (sync now task_id ext ws)
  = if stm_changed json_loads task && external_changed json_loads task ext then
      Return (SyncResult false false ["Both STM and external system have changes"])
    else if external_changed json_loads task ext then
      match tags_conflict task ext with
      | Some tags_c =>
          Return (SyncResult true false
                    (title_conflict task ext ++ status_conflict task ext ++ tags_c)%list)
      | None => Raise TypeError
      end
    else if stm_changed json_loads task then Return (SyncResult false true [])
    else Return (SyncResult false false []).
Proof.
  intros F.
  destruct (stm_changed json_loads task) eqn:S;
    destruct (external_changed json_loads task ext) eqn:E; cbn [andb].
  - now rewrite (sync_both_changed _ _ _ _ _ _ F S E).
  - now rewrite (sync_local_changed _ _ _ _ _ _ F S E).
  - destruct (tags_conflict task ext) as [tags_c|] eqn:T.
    + now rewrite (sync_external_changed _ _ _ _ _ _ _ F S E T).
    + now rewrite (sync_external_changed_type_error _ _ _ _ _ _ F S E T).
  - now rewrite (sync_in_sync _ _ _ _ _ _ F S E).
Qed.

(** The task a call leaves behind: the task it found, with at most the four
    [sync_] fields assigned. *)
Lemma sync_store_of_task
    (now : string) (task_id : Z) (ext : dict) (ws : workspace) (task : dict) :
  find_task task_id ws = Some task ->
  snd (sync now task_id ext ws) = ws
  \/ snd (sync now task_id ext ws)
     = store_task task_id
         (dict_set "sync_last_external_sync" (JStr now)
            (dict_set "sync_last_stm_hash" (JStr (current_stm_hash task)) task)) ws
  \/ snd (sync now task_id ext ws)
     = store_task task_id
         (dict_set "sync_external_data" (JStr (json_dumps false (JDict ext)))
            (dict_set "sync_last_external_sync" (JStr now)
               (dict_set "sync_last_external_hash"
                  (JStr (current_external_hash ext)) task))) ws.
Proof.
  intros F.
  destruct (stm_changed json_loads task) eqn:S;
    destruct (external_changed json_loads task ext) eqn:E.
  - left. now rewrite (sync_both_changed _ _ _ _ _ _ F S E).
  - right; left. now rewrite (sync_local_changed _ _ _ _ _ _ F S E).
  - destruct (tags_conflict task ext) as [tags_c|] eqn:T.
    + right; right. now rewrite (sync_external_changed _ _ _ _ _ _ _ F S E T).
    + left. now rewrite (sync_external_changed_type_error _ _ _ _ _ _ F S E T).
  - left. now rewrite (sync_in_sync _ _ _ _ _ _ F S E).
Qed.

(** X3.  Whatever branch runs and whether it returns or raises, a call writes
    nothing but the four fields [sync_last_stm_hash], [sync_last_external_hash],
    [sync_last_external_sync] and [sync_external_data] of the task it was given:
    every other field (title, status and tags among them) keeps its value, the
    keys stay distinct, the other tasks are untouched and no task appears or
    disappears. *)
Theorem sync_writes_only_sync_fields
    (now : string) (task_id : Z) (ext : dict) (ws : workspace) (task : dict) :
  find_task task_id ws = Some task ->
  exists task' : dict,
    find_task task_id (snd (sync now task_id ext ws)) = Some task'
    /\ (forall k : string,
          k <> "sync_last_stm_hash" -> k <> "sync_last_external_hash" ->
          k <> "sync_last_external_sync" -> k <> "sync_external_data" ->
          dict_get k task' = dict_get k task)
    /\ stm_data task' = stm_data task
    /\ (distinct_keys task = true -> distinct_keys task' = true)
    /\ (forall other : Z,
          other <> task_id ->
          find_task other (snd (sync now task_id ext ws)) = find_task other ws)
    /\ map fst (snd (sync now task_id ext ws)) = map fst ws.
Proof.
  intros F.
  destruct (sync_store_of_task now task_id ext ws task F) as [E|[E|E]]; rewrite E.
  - exists task. repeat split; auto.
  - eexists. split; [now apply (find_store_same _ _ task)|].
    split; [|split; [|split; [|split]]].
    + intros k H1 H2 H3 H4. now rewrite !dict_get_set_other by congruence.
    + apply stm_data_frame; now rewrite !dict_get_set_other by discriminate.
    + intros D. now repeat apply dict_set_distinct.
    + intros other NE. now apply find_store_other.
    + apply store_task_ids.
  - eexists. split; [now apply (find_store_same _ _ task)|].
    split; [|split; [|split; [|split]]].
    + intros k H1 H2 H3 H4. now rewrite !dict_get_set_other by congruence.
    + apply stm_data_frame; now rewrite !dict_get_set_other by discriminate.
    + intros D. now repeat apply dict_set_distinct.
    + intros other NE. now apply find_store_other.
    + apply store_task_ids.
Qed.

(** X4.  A call that is not a conflict settles the state: when at most one side
    changed and the call returns, a second call with the same external data
    (at any later time) finds both hashes as stored, returns both flags [False]
    with no conflict, and writes nothing. *)
Theorem second_sync_is_in_sync
    (now1 now2 : string) (task_id : Z) (ext : dict) (ws ws' : workspace)
    (task : dict) (r : sync_result) :
  find_task task_id ws = Some task ->
  distinct_keys task = true ->
  stm_changed json_loads task && external_changed json_loads task ext = false ->
  sync now1 task_id ext ws = (Return r, ws') ->
  sync now2 task_id ext ws' = (Return (SyncResult false false []), ws').
Proof.
  intros F D B R.
  destruct (stm_changed json_loads task) eqn:S;
    destruct (external_changed json_loads task ext) eqn:E; try discriminate B.
  - (* local changed *)
    rewrite (sync_local_changed _ _ _ _ _ _ F S E) in R.
    injection R as _ <-.
    eapply sync_in_sync; [now apply (find_store_same _ _ task)| |].
    + apply stm_changed_false. rewrite last_stm_hash_read
        by now repeat apply dict_set_distinct.
      rewrite dict_get_set_other by discriminate. rewrite dict_get_set_same.
      unfold current_stm_hash. rewrite decode_field_hash.
      now rewrite !stm_data_after_set by discriminate.
    + apply external_changed_false. apply external_changed_false in E.
      rewrite last_external_hash_read by now repeat apply dict_set_distinct.
      rewrite !dict_get_set_other by discriminate.
      now rewrite <- last_external_hash_read.
  - (* external changed *)
    destruct (tags_conflict task ext) as [tags_c|] eqn:T.
    2: { rewrite (sync_external_changed_type_error _ _ _ _ _ _ F S E T) in R.
         discriminate R. }
    rewrite (sync_external_changed _ _ _ _ _ _ _ F S E T) in R.
    injection R as _ <-.
    eapply sync_in_sync; [now apply (find_store_same _ _ task)| |].
    + apply stm_changed_false. apply stm_changed_false in S.
      rewrite last_stm_hash_read by now repeat apply dict_set_distinct.
      rewrite !dict_get_set_other by discriminate.
      rewrite <- last_stm_hash_read by exact D. rewrite S.
      unfold current_stm_hash. now rewrite !stm_data_after_set by discriminate.
    + apply external_changed_false.
      rewrite last_external_hash_read by now repeat apply dict_set_distinct.
      rewrite !dict_get_set_other by discriminate. rewrite dict_get_set_same.
      apply decode_field_hash.
  - (* in sync *)
    rewrite (sync_in_sync _ _ _ _ _ _ F S E) in R. injection R as _ <-.
    now apply sync_in_sync with task.
Qed.

(** X5.  When only the external side changed and the labels or the tags cannot
    be made a set (a value that is not iterable, or a list holding a list or a
    dict), the call raises [TypeError] and nothing is written: the stored
    external hash stays stale. *)
Theorem external_changed_unhashable_labels_raise
    (now : string) (task_id : Z) (ext : dict) (ws : workspace) (task : dict) :
  find_task task_id ws = Some task ->
  last_stm_hash json_loads task = JStr (current_stm_hash task) ->
  last_external_hash json_loads task <> JStr (current_external_hash ext) ->
  py_set (get_or "labels" ext (JList [])) = None
  \/ py_set (get_or "tags" task (JList [])) = None ->
  sync now task_id ext ws = (Raise TypeError, ws).
Proof.
  intros F S E T. apply stm_changed_false in S. apply external_changed_true in E.
  apply sync_external_changed_type_error with task; try assumption.
  unfold tags_conflict. destruct T as [T|T]; rewrite T; [reflexivity|].
  now destruct (py_set (get_or "labels" ext (JList []))).
Qed.

End SyncFrame.

Lemma sync_writes_only_sync_fields_witness :
  exists task' : dict,
    find_task 1
      (snd (sync_task_bidirectional sample_loads sample_now 1 external_review
              [(1%Z, synced_task)])) = Some task'
    /\ (forall k : string,
          k <> "sync_last_stm_hash" -> k <> "sync_last_external_hash" ->
          k <> "sync_last_external_sync" -> k <> "sync_external_data" ->
          dict_get k task' = dict_get k synced_task)
    /\ stm_data task' = stm_data synced_task
    /\ (distinct_keys synced_task = true -> distinct_keys task' = true)
    /\ (forall other : Z,
          other <> 1%Z ->
          find_task other
            (snd (sync_task_bidirectional sample_loads sample_now 1 external_review
                    [(1%Z, synced_task)]))
          = find_task other [(1%Z, synced_task)])
    /\ map fst (snd (sync_task_bidirectional sample_loads sample_now 1 external_review
                       [(1%Z, synced_task)]))
       = map fst [(1%Z, synced_task)].
Proof.
  apply (sync_writes_only_sync_fields sample_loads sample_now 1%Z external_review
           [(1%Z, synced_task)] synced_task).
  reflexivity.
Defined.

Lemma second_sync_is_in_sync_witness :
  sync_task_bidirectional sample_loads "2025-01-20T09:00:00+00:00" 1 external_same
    (snd (sync_task_bidirectional sample_loads sample_now 1 external_same
            [(1%Z, edited_task)]))
  = (Return (SyncResult false false []),
     snd (sync_task_bidirectional sample_loads sample_now 1 external_same
            [(1%Z, edited_task)])).
Proof.
  apply (second_sync_is_in_sync sample_loads sample_now "2025-01-20T09:00:00+00:00"
           1%Z external_same [(1%Z, edited_task)] _ edited_task
           (SyncResult false true [])).
  - reflexivity.
  - reflexivity.
  - vm_compute. reflexivity.
  - vm_compute. reflexivity.
Defined.

Lemma external_changed_unhashable_labels_raise_witness :
  sync_task_bidirectional sample_loads sample_now 1 external_null_labels
    [(1%Z, synced_task)]
  = (Raise TypeError, [(1%Z, synced_task)]).
Proof.
  apply (external_changed_unhashable_labels_raise sample_loads sample_now 1%Z
           external_null_labels [(1%Z, synced_task)] synced_task).
  - reflexivity.
  - vm_compute. reflexivity.
  - intros C. vm_compute in C. discriminate C.
  - left. reflexivity.
Defined.

(* ================================================================== *)
(** * Writing integration fields and reading them back *)
(* ================================================================== *)





(** A name that continues a prefix free of [=] is cut into a name that still
    continues the prefix. *)
Lemma split_assignment_prefix (q rest name value : string) :
  has_equals q = false ->
  split_assignment (q ++ rest) = Some (name, value) ->
  exists name', name = q ++ name'.
Proof.
  revert name. induction q as [|c q IH]; intros name Hq H.
  - now exists name.
  - simpl in Hq. apply orb_false_elim in Hq as [Hc Hq].
    simpl in H. rewrite Hc in H.
    destruct (split_assignment (q ++ rest)) as [[n v]|] eqn:E; [|discriminate].
    injection H as <- <-. destruct (IH n Hq eq_refl) as [n' ->].
    now exists n'.
Qed.

Section FieldRoundTrip.

Variable json_loads : string -> option json.

Lemma integration_fields_fold_distinct (p : string) (task acc : dict) :
  distinct_keys acc = true ->
  distinct_keys
    (fold_left
       (fun fields kv =>
          if String.prefix (p ++ "_") (fst kv) then
            dict_set (string_from (String.length (p ++ "_")) (fst kv))
                     (decode_field json_loads (snd kv)) fields
          else fields) task acc) = true.
Proof.
  revert acc. induction task as [|[key value] task IH]; intros acc D; [exact D|].
  simpl fold_left. apply IH. simpl fst.
  destruct (String.prefix (p ++ "_") key); [now apply dict_set_distinct|exact D].
Qed.

(** X6.  [get_integration_fields] returns a dict (distinct keys) that holds
    exactly the fields of the task whose key starts with the prefix, under the
    key without the prefix and with the value decoded: no other field of the
    task, and no field of another prefix, is returned. *)
Theorem get_integration_fields_exact (p : string) (task : dict) :
  distinct_keys task = true ->
  distinct_keys (get_integration_fields json_loads p task) = true
  /\ (forall k : string,
        dict_get k (get_integration_fields json_loads p task)
        = option_map (decode_field json_loads) (dict_get ((p ++ "_") ++ k) task))
  /\ (forall k : string,
        dict_get k (get_integration_fields json_loads p task) <> None ->
        In ((p ++ "_") ++ k) (map fst task)).
Proof.
  intros D. split; [|split].
  - now apply integration_fields_fold_distinct.
  - intros k. now apply get_integration_fields_get.
  - intros k H. rewrite get_integration_fields_get in H by exact D.
    destruct (dict_get ((p ++ "_") ++ k) task) eqn:E; [|now elim H].
    destruct (in_dec string_dec ((p ++ "_") ++ k) (map fst task)) as [I|I];
      [exact I|].
    apply dict_get_None in I. congruence.
Qed.






End FieldRoundTrip.

Lemma get_integration_fields_exact_witness :
  distinct_keys (get_integration_fields sample_loads "sync" synced_task) = true
  /\ (forall k : string,
        dict_get k (get_integration_fields sample_loads "sync" synced_task)
        = option_map (decode_field sample_loads)
            (dict_get (("sync" ++ "_") ++ k) synced_task))
  /\ (forall k : string,
        dict_get k (get_integration_fields sample_loads "sync" synced_task) <> None ->
        In (("sync" ++ "_") ++ k) (map fst synced_task)).
Proof.
  apply (get_integration_fields_exact sample_loads "sync" synced_task).
  reflexivity.
Defined.




(* ================================================================== *)
(** * Fields of one integration and the sync of the other *)
(* ================================================================== *)

Lemma apply_assignments_prefix_frame (q : string) (args : list string) (t t' : dict) :
  has_equals q = false ->
  Forall (fun a => String.prefix q a = true) args ->
  apply_assignments args t = Some t' ->
  (forall k : string, String.prefix q k = false -> dict_get k t' = dict_get k t)
  /\ (distinct_keys t = true -> distinct_keys t' = true).
Proof.
  intros Hq HF. revert t. induction HF as [|a args Ha HF IH]; intros t H.
  - injection H as <-. now split.
  - simpl in H. destruct (split_assignment a) as [[n v]|] eqn:E; [|discriminate].
    destruct (IH _ H) as [Fr D].
    rewrite (prefix_split _ _ Ha) in E.
    destruct (split_assignment_prefix _ _ _ _ Hq E) as [n' ->].
    split.
    + intros k Hk. rewrite (Fr k Hk). apply dict_get_set_other.
      intros <-. now rewrite prefix_append in Hk.
    + intros D0. apply D. now apply dict_set_distinct.
Qed.

Section Isolation.

Variable json_loads : string -> option json.

(** The result of a sync call depends on the task only through its title,
    status and tags and its two stored hashes. *)
Lemma sync_result_frame
    (now : string) (task_id : Z) (ext : dict) (ws ws' : workspace) (task task' : dict) :
  find_task task_id ws = Some task ->
  find_task task_id ws' = Some task' ->
  distinct_keys task = true ->
  distinct_keys task' = true ->
  (forall k : string, String.prefix "pms_" k = false ->
                      dict_get k task' = dict_get k task) ->
  fst (sync_task_bidirectional json_loads now task_id ext ws')
  = fst (sync_task_bidirectional json_loads now task_id ext ws).
Proof.
  intros F F' D D' Fr.
  rewrite (sync_result_of_task json_loads now task_id ext ws task F).
  rewrite (sync_result_of_task json_loads now task_id ext ws' task' F').
  assert (Sd : stm_data task' = stm_data task)
    by (apply stm_data_frame; now apply Fr).
  assert (S : stm_changed json_loads task' = stm_changed json_loads task).
  { unfold stm_changed, current_stm_hash. rewrite Sd.
    rewrite !last_stm_hash_read by assumption. now rewrite Fr. }
  assert (E : external_changed json_loads task' ext
              = external_changed json_loads task ext).
  { unfold external_changed.
    rewrite !last_external_hash_read by assumption. now rewrite Fr. }
  assert (T1 : title_conflict task' ext = title_conflict task ext)
    by (unfold title_conflict, get_or; now rewrite Fr).
  assert (T2 : status_conflict task' ext = status_conflict task ext)
    by (unfold status_conflict, get_or; now rewrite Fr).
  assert (T3 : tags_conflict task' ext = tags_conflict task ext)
    by (unfold tags_conflict, get_or; now rewrite Fr).
  now rewrite S, E, T1, T2, T3.
Qed.

(** X10.  Whatever is written under the [pms] prefix, bookkeeping of the
    project-management integration does not disturb change detection: after
    any successful [update_task_fields] with prefix [pms], a sync call returns
    exactly what it would have returned before. *)
Theorem pms_fields_do_not_affect_sync
    (task_id : Z) (fields : dict) (ws ws' : workspace) (task : dict) :
  find_task task_id ws = Some task ->
  distinct_keys task = true ->
  update_task_fields "pms" task_id fields ws = (Return tt, ws') ->
  forall (now : string) (ext : dict),
    fst (sync_task_bidirectional json_loads now task_id ext ws')
    = fst (sync_task_bidirectional json_loads now task_id ext ws).
Proof.
  intros F D U now ext.
  unfold update_task_fields, stm_update in U. rewrite F in U.
  destruct (apply_assignments _ task) as [task'|] eqn:A; [|discriminate U].
  injection U as <-.
  apply apply_assignments_prefix_frame with (q := "pms_") in A; [|reflexivity|].
  - destruct A as [Fr D'].
    apply (sync_result_frame now task_id ext ws _ task task'); auto.
    now apply (find_store_same _ _ task).
  - apply Forall_forall. intros a I. apply in_map_iff in I as [[k v] [<- _]].
    exact (prefix_append "pms_" (k ++ "=" ++ field_value v)).
Qed.

End Isolation.

Lemma pms_fields_do_not_affect_sync_witness :
  fst (sync_task_bidirectional sample_loads sample_now 1 external_review
         (snd (update_task_fields "pms" 1 [("priority", JInt 2)]
                 [(1%Z, synced_task)])))
  = fst (sync_task_bidirectional sample_loads sample_now 1 external_review
           [(1%Z, synced_task)]).
Proof.
  apply (pms_fields_do_not_affect_sync sample_loads 1%Z [("priority", JInt 2)]
           [(1%Z, synced_task)] _ synced_task eq_refl eq_refl eq_refl
           sample_now external_review).
Defined.

(* ================================================================== *)
(** * The bookkeeping calls of [ProjectManagementSystem] *)
(* ================================================================== *)


Section Bookkeeping.

Variable json_loads : string -> option json.




(** X12.  [add_external_comment] appends: with [old] the comments read from the
    task, it writes [old] followed by the new comment, all earlier comments
    kept in order and, unlike the sync history, never cut.  When what is read
    is not a list, [append] raises [AttributeError] and nothing is written. *)
Theorem add_external_comment_appends
    (now : string) (task_id : Z) (author comment : string)
    (ws : workspace) (task : dict) :
  find_task task_id ws = Some task ->
  match external_comments json_loads task with
  | JList old =>
      exists written : list json,
        add_external_comment json_loads now task_id author comment ws
        = (Return tt,
           store_task task_id
             (dict_set "pms_external_comments"
                (JStr (json_dumps false (JList written))) task) ws)
        /\ List.length written = S (List.length old)
        /\ firstn (List.length old) written = old
        /\ last written JNull
           = JDict [("author", JStr author); ("comment", JStr comment);
                    ("timestamp", JStr now)]
  | _ =>
      add_external_comment json_loads now task_id author comment ws
      = (Raise AttributeError, ws)
  end.
Proof.
  intros F. unfold add_external_comment, bind, get_task, stm_show. rewrite F.
  destruct (external_comments json_loads task) as [| | | |old|]; try reflexivity.
  eexists. split; [|split; [|split]].
  - unfold update_task_fields, stm_update. rewrite F.
    cbn [map fst snd field_value apply_assignments].
    rewrite split_assignment_join by reflexivity. reflexivity.
  - rewrite length_app. simpl. lia.
  - rewrite firstn_app, Nat.sub_diag, firstn_all. simpl. apply app_nil_r.
  - apply last_last.
Qed.



End Bookkeeping.

Lemma add_external_comment_appends_witness :
  match external_comments sample_loads fresh_task with
  | JList old =>
      exists written : list json,
        add_external_comment sample_loads sample_now 1 "external-user@client.com"
          "Please prioritize this feature" [(1%Z, fresh_task)]
        = (Return tt,
           store_task 1
             (dict_set "pms_external_comments"
                (JStr (json_dumps false (JList written))) fresh_task)
             [(1%Z, fresh_task)])
        /\ List.length written = S (List.length old)
        /\ firstn (List.length old) written = old
        /\ last written JNull
           = JDict [("author", JStr "external-user@client.com");
                    ("comment", JStr "Please prioritize this feature");
                    ("timestamp", JStr sample_now)]
  | _ =>
      add_external_comment sample_loads sample_now 1 "external-user@client.com"
        "Please prioritize this feature" [(1%Z, fresh_task)]
      = (Raise AttributeError, [(1%Z, fresh_task)])
  end.
Proof.
  apply (add_external_comment_appends sample_loads sample_now 1%Z
           "external-user@client.com" "Please prioritize this feature"
           [(1%Z, fresh_task)] fresh_task).
  reflexivity.
Defined.



(* ================================================================== *)
(** * [get_team_dashboard_data] *)
(* ================================================================== *)

Lemma counter_total_set_any (k : json) (n : nat) (c : list (json * nat)) :
  counter_total (counter_set k n c) + counter_get k c = counter_total c + n.
Proof.
  unfold counter_total.
  induction c as [|[k' m] c IH]; simpl; [lia|].
  destruct (py_eq k' k); simpl; lia.
Qed.

Lemma counter_total_set (k : json) (c : list (json * nat)) :
  counter_total (counter_set k (counter_get k c + 1) c) = counter_total c + 1.
Proof.
  pose proof (counter_total_set_any k (counter_get k c + 1) c). lia.
Qed.


Lemma priority_incr_keys (p : Z) (c : list (Z * nat)) :
  map fst (priority_incr p c) = map fst c.
Proof.
  unfold priority_incr. rewrite map_map. apply map_ext.
  intros [k n]. simpl. now destruct (Z.eqb k p).
Qed.

Lemma priority_incr_total (p : Z) (c : list (Z * nat)) :
  map fst c = [1; 2; 3; 4; 5]%Z ->
  counter_total (priority_incr p c) <= counter_total c + 1.
Proof.
  destruct c as [|[k1 n1] [|[k2 n2] [|[k3 n3] [|[k4 n4] [|[k5 n5] [|? ?]]]]]];
    try discriminate.
  simpl. intros E. injection E as -> -> -> -> ->.
  destruct (Z.eqb_spec 1 p), (Z.eqb_spec 2 p), (Z.eqb_spec 3 p),
    (Z.eqb_spec 4 p), (Z.eqb_spec 5 p); simpl; lia.
Qed.


Section Dashboard.

Variable json_loads : string -> option json.
Variable int_of_str : string -> option Z.
Variable isoformat_date : string -> option Z.
Variable stm_list : list string -> workspace -> option (list dict).

Local Abbreviation step := (dashboard_step json_loads int_of_str isoformat_date).
Local Abbreviation loop := (dashboard_loop json_loads int_of_str isoformat_date).

(** What one turn of the loop does to each entry, when it does not raise. *)
Lemma dashboard_step_inversion (today : Z) (d d' : dashboard) (task : dict) :
  step today d task = Ok d' ->
  let fields := get_integration_fields json_loads "pms" task in
  let priority := get_or "priority" fields JNull in
  let assignee := get_or "assignee" fields JNull in
  total_tasks d' = total_tasks d
  /\ counter_incr (get_or "status" task (JStr "pending")) (by_status d)
     = Some (by_status d')
  /\ by_priority d'
     = (if truthy priority && is_int_or_str priority then
          match py_int int_of_str priority with
          | Some p =>
              if Z.leb 1 p && Z.leb p 5 then priority_incr p (by_priority d)
              else by_priority d
          | None => by_priority d
          end
        else by_priority d)
  /\ (if truthy assignee
      then counter_incr assignee (by_assignee d) = Some (by_assignee d')
           /\ unassigned d' = unassigned d
      else by_assignee d' = by_assignee d /\ unassigned d' = unassigned d + 1)
  /\ overdue d' + updated_today d' <= overdue d + updated_today d + 1.
Proof.
  unfold dashboard_step. intros H. cbv zeta.
  destruct (counter_incr (get_or "status" task (JStr "pending")) (by_status d))
    as [bs|]; [|discriminate H].
  set (assignee := get_or "assignee" (get_integration_fields json_loads "pms" task) JNull)
    in *.
  destruct (truthy assignee) eqn:TA.
  - destruct (counter_incr assignee (by_assignee d)) as [ba|]; [|discriminate H].
    destruct (truthy (get_or "updated" task JNull)).
    + destruct (get_or "updated" task JNull) as [| | |s| |]; try discriminate H.
      destruct (isoformat_date (replace_Z s)) as [u|]; [|discriminate H].
      injection H as <-. simpl.
      repeat split; try reflexivity.
      destruct (Z.ltb_spec 14 (today - u)), (Z.eqb_spec u today);
        cbn [andb]; try destruct (py_eq _ _); lia.
    + injection H as <-. simpl. repeat split; try reflexivity. lia.
  - destruct (truthy (get_or "updated" task JNull)).
    + destruct (get_or "updated" task JNull) as [| | |s| |]; try discriminate H.
      destruct (isoformat_date (replace_Z s)) as [u|]; [|discriminate H].
      injection H as <-. simpl.
      repeat split; try reflexivity.
      destruct (Z.ltb_spec 14 (today - u)), (Z.eqb_spec u today);
        cbn [andb]; try destruct (py_eq _ _); lia.
    + injection H as <-. simpl. repeat split; try reflexivity. lia.
Qed.

Lemma dashboard_step_counts (today : Z) (d d' : dashboard) (task : dict) :
  step today d task = Ok d' ->
  total_tasks d' = total_tasks d
  /\ counter_total (by_status d') = counter_total (by_status d) + 1
  /\ counter_total (by_assignee d') + unassigned d'
     = counter_total (by_assignee d) + unassigned d + 1
  /\ map fst (by_priority d') = map fst (by_priority d)
  /\ (map fst (by_priority d) = [1; 2; 3; 4; 5]%Z ->
      counter_total (by_priority d') <= counter_total (by_priority d) + 1)
  /\ overdue d' + updated_today d' <= overdue d + updated_today d + 1.
Proof.
  intros H. apply dashboard_step_inversion in H. cbv zeta in H.
  destruct H as (T & S & P & A & O).
  split; [exact T|]. split; [|split; [|split; [|split]]].
  - unfold counter_incr in S. destruct (hashable _); [|discriminate S].
    injection S as <-. apply counter_total_set.
  - match type of A with (if ?c then _ else _) => destruct c end.
    + destruct A as [A ->]. unfold counter_incr in A.
      destruct (hashable _); [|discriminate A]. injection A as <-.
      rewrite counter_total_set. lia.
    + destruct A as [-> ->]. lia.
  - rewrite P. destruct (truthy _ && is_int_or_str _); [|reflexivity].
    destruct (py_int _ _) as [p|]; [|reflexivity].
    destruct (Z.leb 1 p && Z.leb p 5); [apply priority_incr_keys|reflexivity].
  - intros K. rewrite P. destruct (truthy _ && is_int_or_str _); [|lia].
    destruct (py_int _ _) as [p|]; [|lia].
    destruct (Z.leb 1 p && Z.leb p 5); [now apply priority_incr_total|lia].
  - exact O.
Qed.

Lemma dashboard_loop_counts (today : Z) (tasks : list dict) (d d' : dashboard) :
  loop today d tasks = Ok d' ->
  total_tasks d' = total_tasks d
  /\ counter_total (by_status d') = counter_total (by_status d) + List.length tasks
  /\ counter_total (by_assignee d') + unassigned d'
     = counter_total (by_assignee d) + unassigned d + List.length tasks
  /\ map fst (by_priority d') = map fst (by_priority d)
  /\ (map fst (by_priority d) = [1; 2; 3; 4; 5]%Z ->
      counter_total (by_priority d')
      <= counter_total (by_priority d) + List.length tasks)
  /\ overdue d' + updated_today d'
     <= overdue d + updated_today d + List.length tasks.
Proof.
  revert d. induction tasks as [|task tasks IH]; intros d H; simpl in H.
  - injection H as <-. simpl. repeat split; lia.
  - destruct (step today d task) as [d1|] eqn:S; [|discriminate H].
    apply dashboard_step_counts in S. destruct S as (T1 & S1 & A1 & K1 & P1 & O1).
    destruct (IH _ H) as (T2 & S2 & A2 & K2 & P2 & O2). simpl List.length.
    split; [congruence|]. split; [lia|]. split; [lia|]. split; [congruence|].
    split; [|lia]. intros K. specialize (P1 K).
    rewrite K1 in P2. specialize (P2 K). lia.
Qed.

Local Abbreviation dashboard_data :=
  (get_team_dashboard_data json_loads int_of_str isoformat_date stm_list).

Lemma dashboard_data_inversion (today : Z) (ws ws' : workspace) (d : dashboard) :
  dashboard_data today ws = (Ok d, ws') ->
  exists tasks : list dict,
    stm_list ["list"; "--json"] ws = Some tasks
    /\ ws' = ws
    /\ loop today (initial_dashboard tasks) tasks = Ok d.
Proof.
  unfold get_team_dashboard_data, list_tasks. cbn [list_tasks_args app].
  destruct (stm_list ["list"; "--json"] ws) as [tasks|]; [|discriminate].
  intros H. injection H as H <-. now exists tasks.
Qed.

(** X15.  When [get_team_dashboard_data] returns, every listed task is counted
    exactly once by status and exactly once as assigned or unassigned:
    [total_tasks] is the number of tasks, the counts of [by_status] add up to
    it, and so do the counts of [by_assignee] together with [unassigned].  The
    workspace is left as it was. *)
Theorem dashboard_counts_every_task_once
    (today : Z) (ws ws' : workspace) (d : dashboard) :
  dashboard_data today ws = (Ok d, ws') ->
  exists tasks : list dict,
    stm_list ["list"; "--json"] ws = Some tasks
    /\ ws' = ws
    /\ total_tasks d = List.length tasks
    /\ counter_total (by_status d) = List.length tasks
    /\ counter_total (by_assignee d) + unassigned d = List.length tasks.
Proof.
  intros H. apply dashboard_data_inversion in H as (tasks & L & -> & H).
  apply dashboard_loop_counts in H. destruct H as (T & S & A & _).
  exists tasks. simpl in *. repeat split; auto; lia.
Qed.

(** X16.  When [get_team_dashboard_data] returns, [by_priority] still has
    exactly the keys 1 to 5 and counts at most one priority per task, and no
    task is counted both as overdue and as updated today: the two counts
    together do not exceed the number of tasks. *)
Theorem dashboard_priority_and_dates_bounded
    (today : Z) (ws ws' : workspace) (d : dashboard) :
  dashboard_data today ws = (Ok d, ws') ->
  map fst (by_priority d) = [1; 2; 3; 4; 5]%Z
  /\ counter_total (by_priority d) <= total_tasks d
  /\ overdue d + updated_today d <= total_tasks d.
Proof.
  intros H. apply dashboard_data_inversion in H as (tasks & L & -> & H).
  apply dashboard_loop_counts in H. destruct H as (T & _ & _ & K & P & O).
  simpl in *. rewrite T. split; [exact K|]. split; [|lia].
  specialize (P eq_refl). lia.
Qed.

(** X17.  One malformed task costs the whole dashboard: when some listed task
    has a status that is a list or a dict, or a non-empty [updated] value that
    is not a [str], the loop raises and no dashboard is returned. *)
Theorem dashboard_fails_on_malformed_task
    (today : Z) (ws : workspace) (tasks : list dict) (task : dict) :
  stm_list ["list"; "--json"] ws = Some tasks ->
  In task tasks ->
  hashable (get_or "status" task (JStr "pending")) = false
  \/ (truthy (get_or "updated" task JNull) = true
      /\ forall s, get_or "updated" task JNull <> JStr s) ->
  exists e : error, dashboard_data today ws = (Failed e, ws).
Proof.
  intros L I B.
  assert (S : forall d, exists e, step today d task = Failed e).
  { intros d. unfold dashboard_step, counter_incr. destruct B as [B|[B1 B2]].
    - rewrite B. now eexists.
    - destruct (hashable (get_or "status" task (JStr "pending"))); [|now eexists].
      destruct (if truthy _ then _ else _) as [[ba un]|]; [|now eexists].
      rewrite B1.
      destruct (get_or "updated" task JNull) as [| | |s| |]; try now eexists.
      now elim (B2 s). }
  assert (Lp : forall d0, exists e, loop today d0 tasks = Failed e).
  { clear L. induction tasks as [|t tasks IH]; intros d0; [contradiction|].
    simpl. destruct I as [->|I].
    - destruct (S d0) as [e E]. rewrite E. now exists e.
    - destruct (step today d0 t) as [d1|e]; [|now exists e]. now apply IH. }
  unfold get_team_dashboard_data, list_tasks. cbn [list_tasks_args app]. rewrite L.
  destruct (Lp (initial_dashboard tasks)) as [e E]. exists e. now rewrite E.
Qed.



End Dashboard.

Lemma dashboard_counts_every_task_once_witness :
  exists tasks : list dict,
    sample_stm_list ["list"; "--json"] team_workspace = Some tasks
    /\ team_workspace = team_workspace
    /\ total_tasks team_dashboard = List.length tasks
    /\ counter_total (by_status team_dashboard) = List.length tasks
    /\ counter_total (by_assignee team_dashboard) + unassigned team_dashboard
       = List.length tasks.
Proof.
  apply (dashboard_counts_every_task_once sample_loads sample_int_of_str
           sample_isoformat_date sample_stm_list 0%Z team_workspace team_workspace
           team_dashboard).
  reflexivity.
Defined.

Lemma dashboard_priority_and_dates_bounded_witness :
  map fst (by_priority team_dashboard) = [1; 2; 3; 4; 5]%Z
  /\ counter_total (by_priority team_dashboard) <= total_tasks team_dashboard
  /\ overdue team_dashboard + updated_today team_dashboard
     <= total_tasks team_dashboard.
Proof.
  apply (dashboard_priority_and_dates_bounded sample_loads sample_int_of_str
           sample_isoformat_date sample_stm_list 0%Z team_workspace team_workspace
           team_dashboard).
  reflexivity.
Defined.

Lemma dashboard_fails_on_malformed_task_witness :
  exists e : error,
    get_team_dashboard_data sample_loads sample_int_of_str sample_isoformat_date
      sample_stm_list 0 [(1%Z, fresh_task); (3%Z, malformed_task)]
    = (Failed e, [(1%Z, fresh_task); (3%Z, malformed_task)]).
Proof.
  apply (dashboard_fails_on_malformed_task sample_loads sample_int_of_str
           sample_isoformat_date sample_stm_list 0%Z
           [(1%Z, fresh_task); (3%Z, malformed_task)]
           [fresh_task; malformed_task] malformed_task).
  - reflexivity.
  - right. left. reflexivity.
  - left. reflexivity.
Defined.



(* ================================================================== *)
(** * The shape of a sync result *)
(* ================================================================== *)

Lemma hashable_strs (l : list string) : forallb hashable (map JStr l) = true.
Proof. induction l as [|s l IH]; simpl; [reflexivity|exact IH]. Qed.

Lemma subset_strs (a b : list string) :
  subset (map JStr a) (map JStr b) = true <-> incl a b.
Proof.
  unfold subset. rewrite forallb_forall. split.
  - intros H s I. specialize (H (JStr s) (in_map JStr _ _ I)).
    apply existsb_exists in H as (y & Iy & E).
    apply in_map_iff in Iy as (t & <- & It). simpl in E.
    apply String.eqb_eq in E. now subst.
  - intros H x Ix. apply in_map_iff in Ix as (s & <- & Is).
    apply existsb_exists. exists (JStr s). split; [apply in_map, H, Is|].
    apply py_eq_str_refl.
Qed.

(** X20.  The tags are compared as sets: for labels and tags that are lists of
    strings, the tags message is absent exactly when every label is a tag and
    every tag a label, whatever their order and however often they repeat. *)
Theorem tags_are_compared_as_sets (task ext : dict) (labels tags : list string) :
  get_or "labels" ext (JList []) = JList (map JStr labels) ->
  get_or "tags" task (JList []) = JList (map JStr tags) ->
  (tags_conflict task ext = Some []
   \/ tags_conflict task ext = Some ["Tags update requires manual intervention"])
  /\ (tags_conflict task ext = Some [] <-> (forall s, In s labels <-> In s tags)).
Proof.
  intros HL HT. unfold tags_conflict, py_set. rewrite HL, HT. cbn [py_iter].
  rewrite !hashable_strs. unfold set_eq.
  destruct (subset (map JStr labels) (map JStr tags)) eqn:A;
    destruct (subset (map JStr tags) (map JStr labels)) eqn:B; cbn [andb negb].
  - apply subset_strs in A. apply subset_strs in B.
    split; [now left|]. split; [|reflexivity].
    intros _ s. split; [apply A|apply B].
  - split; [now right|]. split; [discriminate|].
    intros H. assert (C : subset (map JStr tags) (map JStr labels) = true)
      by (apply subset_strs; intros s I; now apply H). congruence.
  - split; [now right|]. split; [discriminate|].
    intros H. assert (C : subset (map JStr labels) (map JStr tags) = true)
      by (apply subset_strs; intros s I; now apply H). congruence.
  - split; [now right|]. split; [discriminate|].
    intros H. assert (C : subset (map JStr labels) (map JStr tags) = true)
      by (apply subset_strs; intros s I; now apply H). congruence.
Qed.

Lemma tags_are_compared_as_sets_witness :
  (tags_conflict synced_task external_swapped = Some []
   \/ tags_conflict synced_task external_swapped
      = Some ["Tags update requires manual intervention"])
  /\ (tags_conflict synced_task external_swapped = Some []
      <-> (forall s, In s ["backend"; "security"] <-> In s ["security"; "backend"])).
Proof.
  apply (tags_are_compared_as_sets synced_task external_swapped
           ["backend"; "security"] ["security"; "backend"]); reflexivity.
Defined.

Section ResultShape.

Variable json_loads : string -> option json.

(** X21.  Whatever a call returns, it never reports both sides as updated, it
    reports [external_updated] only without conflicts, and its conflicts are at
    most three, each one of the four messages of the source. *)
Theorem sync_result_shape
    (now : string) (task_id : Z) (ext : dict) (ws ws' : workspace) (r : sync_result) :
  sync_task_bidirectional json_loads now task_id ext ws = (Return r, ws') ->
  stm_updated r && external_updated r = false
  /\ (external_updated r = true -> conflicts r = [])
  /\ List.length (conflicts r) <= 3
  /\ Forall (fun c => In c [ "Both STM and external system have changes";
                             "Title update requires manual intervention";
                             "Status update requires manual intervention";
                             "Tags update requires manual intervention" ])
            (conflicts r).
Proof.
  intros H. apply (f_equal fst) in H. cbn [fst] in H.
  destruct (find_task task_id ws) as [task|] eqn:F.
  2: { rewrite sync_missing_task in H by exact F. discriminate H. }
  rewrite (sync_result_of_task json_loads now task_id ext ws task F) in H.
  destruct (stm_changed json_loads task && external_changed json_loads task ext).
  { injection H as <-. cbn [stm_updated external_updated conflicts andb List.length].
    split; [reflexivity|]. split; [discriminate|]. split; [lia|].
    constructor; [left; reflexivity|constructor]. }
  destruct (external_changed json_loads task ext).
  2: { destruct (stm_changed json_loads task); injection H as <-;
       cbn [stm_updated external_updated conflicts andb List.length];
       (split; [reflexivity|]); (split; [reflexivity|]); (split; [lia|constructor]). }
  destruct (tags_conflict task ext) as [tags_c|] eqn:T; [|discriminate H].
  injection H as <-. cbn [stm_updated external_updated conflicts andb].
  assert (Tc : tags_c = [] \/ tags_c = ["Tags update requires manual intervention"]).
  { unfold tags_conflict in T.
    destruct (py_set _); [|discriminate T]. destruct (py_set _); [|discriminate T].
    injection T as <-. destruct (negb _); auto. }
  assert (T1 : title_conflict task ext = []
               \/ title_conflict task ext
                  = ["Title update requires manual intervention"])
    by (unfold title_conflict; destruct (negb _); auto).
  assert (T2 : status_conflict task ext = []
               \/ status_conflict task ext
                  = ["Status update requires manual intervention"])
    by (unfold status_conflict; destruct (negb _); auto).
  split; [reflexivity|]. split; [discriminate|].
  split.
  - rewrite !length_app.
    destruct T1 as [-> | ->], T2 as [-> | ->], Tc as [-> | ->]; cbn [List.length]; lia.
  - apply Forall_app. split; [|apply Forall_app; split].
    + destruct T1 as [-> | ->]; constructor; [|constructor].
      right. left. reflexivity.
    + destruct T2 as [-> | ->]; constructor; [|constructor].
      right. right. left. reflexivity.
    + destruct Tc as [-> | ->]; constructor; [|constructor].
      right. right. right. left. reflexivity.
Qed.

End ResultShape.

Lemma sync_result_shape_witness :
  stm_updated (SyncResult true false ["Status update requires manual intervention"])
  && external_updated
       (SyncResult true false ["Status update requires manual intervention"]) = false
  /\ (external_updated
        (SyncResult true false ["Status update requires manual intervention"]) = true ->
      conflicts (SyncResult true false ["Status update requires manual intervention"])
      = [])
  /\ List.length
       (conflicts (SyncResult true false ["Status update requires manual intervention"]))
     <= 3
  /\ Forall (fun c => In c [ "Both STM and external system have changes";
                             "Title update requires manual intervention";
                             "Status update requires manual intervention";
                             "Tags update requires manual intervention" ])
            (conflicts
               (SyncResult true false ["Status update requires manual intervention"])).
Proof.
  apply (sync_result_shape sample_loads sample_now 1%Z external_review
           [(1%Z, synced_task)]
           (snd (sync_task_bidirectional sample_loads sample_now 1 external_review
                   [(1%Z, synced_task)]))
           (SyncResult true false ["Status update requires manual intervention"])).
  vm_compute. reflexivity.
Defined.

(* ================================================================== *)
(** * The text that is hashed *)
(* ================================================================== *)

Lemma all_printable_append (a b : string) :
  all_printable (a ++ b) = all_printable a && all_printable b.
Proof.
  induction a as [|c a IH]; simpl; [reflexivity|]. now rewrite IH, andb_assoc.
Qed.

Lemma hex_digit_printable (n : N) : printable (Sha256.hex_digit n) = true.
Proof.
  destruct n as [|p]; [reflexivity|].
  do 4 (try destruct p as [p|p|]); reflexivity.
Qed.

Lemma escape_char_printable (c : ascii) : all_printable (escape_char c) = true.
Proof.
  unfold escape_char. cbv zeta.
  repeat match goal with
         | |- context [N.eqb ?a ?b] => destruct (N.eqb a b); [reflexivity|]
         end.
  destruct (N.ltb_spec (N_of_ascii c) 32) as [L|L]; cbn [orb].
  - unfold hex4, Sha256.nibble. cbn [append all_printable].
    now rewrite !hex_digit_printable.
  - destruct (N.ltb_spec 126 (N_of_ascii c)) as [G|G].
    + unfold hex4, Sha256.nibble. cbn [append all_printable].
      now rewrite !hex_digit_printable.
    + cbn [all_printable]. unfold printable.
      apply N.leb_le in L. apply N.leb_le in G. now rewrite L, G.
Qed.

Lemma escape_printable (s : string) : all_printable (escape s) = true.
Proof.
  induction s as [|c s IH]; simpl; [reflexivity|].
  now rewrite all_printable_append, escape_char_printable, IH.
Qed.

Lemma encode_str_printable (s : string) : all_printable (encode_str s) = true.
Proof.
  unfold encode_str. cbn [all_printable].
  rewrite all_printable_append, escape_printable. reflexivity.
Qed.

Lemma encode_int_printable (n : Z) : all_printable (encode_int n) = true.
Proof.
  assert (U : forall d, all_printable (NilEmpty.string_of_uint d) = true)
    by (induction d; simpl; auto).
  unfold encode_int, NilZero.string_of_int, NilZero.string_of_uint.
  destruct (Z.to_int n) as [d|d]; destruct d; cbn [all_printable]; try reflexivity;
    try apply U; rewrite U; reflexivity.
Qed.

Lemma concat_printable (sep : string) (l : list string) :
  all_printable sep = true ->
  Forall (fun x => all_printable x = true) l ->
  all_printable (String.concat sep l) = true.
Proof.
  intros Hs HF. induction HF as [|x l Hx HF IH]; [reflexivity|].
  simpl. destruct l as [|y l]; [exact Hx|].
  now rewrite !all_printable_append, Hx, Hs, IH.
Qed.

Lemma sort_items_Forall {V : Type} (P : string * V -> Prop) (l : list (string * V)) :
  Forall P l -> Forall P (sort_items l).
Proof.
  assert (I : forall x s, P x -> Forall P s -> Forall P (insert_item x s)).
  { intros x s Hx Hs. induction Hs as [|y s Hy Hs IH]; simpl.
    - now repeat constructor.
    - destruct (String.leb (fst x) (fst y)); repeat constructor; assumption. }
  induction 1 as [|x l Hx HF IH]; simpl; [constructor|now apply I].
Qed.

(** X22.  Whatever characters the values hold, [json.dumps] prints printable
    ASCII only: the text that [compute_sync_hash] hashes, and the text stored for
    a list or a dict, has no character outside space..tilde, so its encoding to
    bytes is the text itself. *)
Theorem json_dumps_is_printable_ascii (sort_keys : bool) (v : json) :
  all_printable (json_dumps sort_keys v) = true.
Proof.
  induction v as [|b|n|s|l IHl|d IHd] using json_induction.
  - reflexivity.
  - now destruct b.
  - apply encode_int_printable.
  - apply encode_str_printable.
  - rewrite json_dumps_list. cbn [append all_printable].
    rewrite all_printable_append, concat_printable; [reflexivity|reflexivity|].
    apply Forall_map. exact IHl.
  - rewrite json_dumps_dict. cbv zeta. cbn [append all_printable].
    rewrite all_printable_append, concat_printable; [reflexivity|reflexivity|].
    apply Forall_map.
    assert (P : Forall (fun kv : string * string => all_printable (encode_item kv) = true)
                  (map (fun kv => (fst kv, json_dumps sort_keys (snd kv))) d)).
    { apply Forall_map. eapply Forall_impl; [|exact IHd].
      intros [k x] Hx. unfold encode_item. cbn [fst snd] in *.
      rewrite !all_printable_append, encode_str_printable, Hx. reflexivity. }
    destruct sort_keys; [now apply sort_items_Forall|exact P].
Qed.
